(** * The PyAutoGUI tool server ([server.py]): model and properties

    [server.py] registers eight tools on a FastMCP server.  Each tool is a
    thin wrapper around one or two calls into collaborators that live
    outside the repository: [pyautogui] (pointer, keyboard, screen),
    Pillow (image decoding and encoding), the Python standard library
    ([base64]) and the FastMCP/pydantic framework (argument validation, the
    call context).

    The development is organised as follows.
    - [Python objects]: exception classes with their method resolution
      order, [isinstance], module attribute lookup, and the [try]/[except]
      statement, including what happens when the expression of an [except]
      clause itself raises.
    - [binascii], [base64]: the part of the standard library that
      [find_image_on_screen] uses.
    - [Platform]: the collaborators whose behaviour the server cannot
      know, taken as parameters.
    - [Server]: the module of [server.py] itself, one definition per
      function, in a state-and-exception monad that records every call made
      to a collaborator.
    - the properties of the tools. *)

From Stdlib Require Import ZArith Ascii SpecFloat.
From stdpp Require Import base strings gmap list pretty.

Local Open Scope Z_scope.

(** ** Python objects *)

(** A [bytes] object. *)
Definition bytes := list Byte.byte.

#[global] Instance byte_eq_dec : EqDecision Byte.byte := Byte.byte_eq_dec.

(** A [float] is an IEEE 754 binary64 value; [SpecFloat] gives the values
    and their comparisons (a comparison with NaN is false). *)
Definition float := spec_float.

(** [0.0], [1.0] and [0.9] (the double nearest to 9/10). *)
Definition float_0_0 : float := S754_zero false.
Definition float_1_0 : float := S754_finite false 4503599627370496 (-52).
Definition float_0_9 : float := S754_finite false 8106479329266893 (-53).

(** [1.5], a value above the bound of [confidence]. *)
Definition float_1_5 : float := S754_finite false 6755399441055744 (-52).

(** A class is known by its name and its method resolution order (the
    class itself first). *)
Record PyClass := { cls_name : string; cls_mro : list string }.

Definition subclass_of (name : string) (base : PyClass) : PyClass :=
  {| cls_name := name; cls_mro := name :: cls_mro base |}.

Definition BaseException : PyClass :=
  {| cls_name := "BaseException"; cls_mro := ["BaseException"] |}.
Definition Exception : PyClass := subclass_of "Exception" BaseException.
Definition ValueError : PyClass := subclass_of "ValueError" Exception.
Definition RuntimeError : PyClass := subclass_of "RuntimeError" Exception.
Definition AttributeError : PyClass := subclass_of "AttributeError" Exception.
Definition TypeError : PyClass := subclass_of "TypeError" Exception.
Definition KeyboardInterrupt : PyClass :=
  subclass_of "KeyboardInterrupt" BaseException.

(** An exception instance: its class and [str(e)], which is what the
    f-strings of [server.py] interpolate. *)
Record PyExc := { exc_class : PyClass; exc_str : string }.

Definition isinstance (e : PyExc) (c : PyClass) : bool :=
  bool_decide (cls_name c ∈ cls_mro (exc_class e)).

(** The outcome of evaluating something that may raise. *)
Inductive Res (A : Type) : Type :=
| Ok (a : A)
| Raise (e : PyExc).
Arguments Ok {A} a.
Arguments Raise {A} e.

#[global] Instance Res_ret : MRet Res := fun A a => Ok a.
#[global] Instance Res_bind : MBind Res := fun A B f r =>
  match r with
  | Ok a => f a
  | Raise e => Raise e
  end.

Definition is_Ok {A} (r : Res A) : bool :=
  match r with Ok _ => true | Raise _ => false end.

(** What a module attribute can be bound to. *)
Inductive PyObject :=
| ObjClass (c : PyClass)
| ObjModule (name : string)
| ObjFunction (qualname : string)
| ObjData.

Record PyModule := { mod_name : string; mod_dict : gmap string PyObject }.

(** [m.name]: a missing attribute raises [AttributeError]. *)
Definition getattr (m : PyModule) (name : string) : Res PyObject :=
  match mod_dict m !! name with
  | Some o => Ok o
  | None =>
      Raise {| exc_class := AttributeError;
               exc_str := "module '" +:+ mod_name m +:+
                          "' has no attribute '" +:+ name +:+ "'" |}
  end.

(** The test an [except] clause makes once its expression has a value:
    only classes can be matched against. *)
Definition exception_matches (e : PyExc) (o : PyObject) : Res bool :=
  match o with
  | ObjClass c => Ok (isinstance e c)
  | _ =>
      Raise {| exc_class := TypeError;
               exc_str := "catching classes that do not inherit from " +:+
                          "BaseException is not allowed" |}
  end.

(** ** The standard library: [binascii] and [base64] *)

Module binascii.

(** [binascii.Error], a subclass of [ValueError]. *)
Definition Error : PyClass := subclass_of "binascii.Error" ValueError.

(** The value of a character of the base64 alphabet. *)
Definition table_a2b_base64 (c : Ascii.ascii) : option Z :=
  let n := Z.of_N (Ascii.N_of_ascii c) in
  if (65 <=? n) && (n <=? 90) then Some (n - 65)
  else if (97 <=? n) && (n <=? 122) then Some (n - 71)
  else if (48 <=? n) && (n <=? 57) then Some (n + 4)
  else if n =? 43 then Some 62
  else if n =? 47 then Some 63
  else None.

Definition BASE64_PAD : Ascii.ascii := "="%char.

Definition byte_of_Z (v : Z) : Byte.byte :=
  Ascii.byte_of_ascii (Ascii.ascii_of_N (Z.to_N (v mod 256))).

(** The decoding loop of [a2b_base64] in its default, non-strict mode:
    characters outside the alphabet are skipped; a run of padding that
    completes a quad ends the decoding; whatever is left of an
    incomplete quad at the end of the input is an error. *)
Fixpoint a2b_base64_loop (ascii_data : string)
    (quad_pos leftchar pads : Z) (bin_data : bytes) : Res bytes :=
  match ascii_data with
  | EmptyString =>
      if quad_pos =? 0 then Ok bin_data
      else if quad_pos =? 1 then
        Raise {| exc_class := Error;
                 exc_str :=
                   "Invalid base64-encoded string: number of data characters ("
                   +:+ pretty (Z.of_nat (length bin_data) / 3 * 4 + 1) +:+
                   ") cannot be 1 more than a multiple of 4" |}
      else Raise {| exc_class := Error; exc_str := "Incorrect padding" |}
  | String this_ch rest =>
      if bool_decide (this_ch = BASE64_PAD) then
        if 2 <=? quad_pos then
          if 4 <=? quad_pos + (pads + 1) then Ok bin_data
          else a2b_base64_loop rest quad_pos leftchar (pads + 1) bin_data
        else a2b_base64_loop rest quad_pos leftchar pads bin_data
      else
        match table_a2b_base64 this_ch with
        | None => a2b_base64_loop rest quad_pos leftchar pads bin_data
        | Some v =>
            if quad_pos =? 0 then
              a2b_base64_loop rest 1 v 0 bin_data
            else if quad_pos =? 1 then
              a2b_base64_loop rest 2 (Z.land v 15) 0
                (bin_data ++
                 [byte_of_Z (Z.lor (Z.shiftl leftchar 2) (Z.shiftr v 4))])
            else if quad_pos =? 2 then
              a2b_base64_loop rest 3 (Z.land v 3) 0
                (bin_data ++
                 [byte_of_Z (Z.lor (Z.shiftl leftchar 4) (Z.shiftr v 2))])
            else
              a2b_base64_loop rest 0 0 0
                (bin_data ++ [byte_of_Z (Z.lor (Z.shiftl leftchar 6) v)])
        end
  end.

Definition a2b_base64 (data : string) : Res bytes :=
  a2b_base64_loop data 0 0 0 [].

End binascii.

Module base64.

(** A [str] argument is encoded as ASCII first; a character outside
    ASCII raises a plain [ValueError]. *)
Definition _bytes_from_decode_data (s : string) : Res string :=
  if forallb (fun c => (Ascii.N_of_ascii c <? 128)%N) (String.list_ascii_of_string s)
  then Ok s
  else Raise {| exc_class := ValueError;
                exc_str := "string argument should contain only ASCII characters" |}.

(** [base64.b64decode(s)] with [altchars=None] and [validate=False], the
    way [server.py] calls it. *)
Definition b64decode (s : string) : Res bytes :=
  s ← _bytes_from_decode_data s; binascii.a2b_base64 s.

(** The names the module binds (CPython 3.11; the private names are left
    out).  The exception of the decoder is reachable as
    [base64.binascii.Error]; the module binds no name [Error]. *)
Definition functions : list string :=
  [ "a85decode"; "a85encode"; "b16decode"; "b16encode"; "b32decode";
    "b32encode"; "b32hexdecode"; "b32hexencode"; "b64decode"; "b64encode";
    "b85decode"; "b85encode"; "decode"; "decodebytes"; "encode";
    "encodebytes"; "main"; "standard_b64decode"; "standard_b64encode";
    "test"; "urlsafe_b64decode"; "urlsafe_b64encode" ].

Definition module : PyModule :=
  {| mod_name := "base64";
     mod_dict :=
       list_to_map
         ([ ("binascii", ObjModule "binascii"); ("re", ObjModule "re");
            ("struct", ObjModule "struct");
            ("MAXBINSIZE", ObjData); ("MAXLINESIZE", ObjData);
            ("bytes_types", ObjData) ]
          ++ map (fun f => (f, ObjFunction ("base64." +:+ f))) functions) |}.

End base64.

(** ** Data of the server *)

(** [Literal["left", "right", "middle"]]. *)
Module Button.
Variant t := left | right | middle.
Definition str (b : t) : string :=
  match b with left => "left" | right => "right" | middle => "middle" end.
End Button.

(** The [Point] that [pyautogui.locateCenterOnScreen] returns. *)
Record Point := { Point_x : Z; Point_y : Z }.

(** [fastmcp.Image(data=..., format=...)]. *)
Record Image := { Image_data : bytes; Image_format : string }.

(** The [Context] object FastMCP hands to a tool that asks for one. *)
Variant Context := FastMCP_Context.

(** The value bound to the global [PILImage] when the import succeeds. *)
Variant PILModule := PIL_Image.

(** One entry per call the server makes into a collaborator, with the
    arguments it passes.  [Picture] is the type of Pillow image objects. *)
Inductive Event (Picture : Type) : Type :=
| pyautogui_moveTo (x y : Z)
| pyautogui_click (x y : Z) (button : Button.t) (clicks : Z)
| pyautogui_typewrite (text : string) (interval : float)
| pyautogui_press (key : string)
| pyautogui_hotkey (keys : list string)
| pyautogui_locateCenterOnScreen (image : Picture) (confidence : float)
| pyautogui_screenshot
| pyautogui_size
| base64_b64decode (s : string)
| PILImage_open (data : bytes)
| Picture_save (image : Picture) (format : string)
| ctx_info (message : string).
Arguments pyautogui_moveTo {Picture} x y.
Arguments pyautogui_click {Picture} x y button clicks.
Arguments pyautogui_typewrite {Picture} text interval.
Arguments pyautogui_press {Picture} key.
Arguments pyautogui_hotkey {Picture} keys.
Arguments pyautogui_locateCenterOnScreen {Picture} image confidence.
Arguments pyautogui_screenshot {Picture}.
Arguments pyautogui_size {Picture}.
Arguments base64_b64decode {Picture} s.
Arguments PILImage_open {Picture} data.
Arguments Picture_save {Picture} image format.
Arguments ctx_info {Picture} message.

(** Does the event drive the pointer or the keyboard? *)
Definition is_input_action {Picture} (ev : Event Picture) : bool :=
  match ev with
  | pyautogui_moveTo _ _ | pyautogui_click _ _ _ _ | pyautogui_typewrite _ _
  | pyautogui_press _ | pyautogui_hotkey _ => true
  | _ => false
  end.

(** ** The collaborators

    [World] is the state of everything outside the process (the desktop,
    the screen content, the pointer); a primitive takes the world it is
    called in and returns the world it leaves together with its value or
    the exception it raises. *)
Record Platform (World Picture : Type) := {
  moveTo : Z → Z → World → World * Res unit;
  click_ : Z → Z → Button.t → Z → World → World * Res unit;
  typewrite : string → float → World → World * Res unit;
  press : string → World → World * Res unit;
  hotkey : list string → World → World * Res unit;
  locateCenterOnScreen : Picture → float → World → World * Res (option Point);
  screenshot : World → World * Res Picture;
  size : World → World * Res (Z * Z);
  Image_open : bytes → World → World * Res Picture;
  save : Picture → string → World → World * Res bytes;
  info : Context → string → World → World * Res unit;
  (** [repr] of a [str], as the interpreter prints it inside a list. *)
  repr_str : string → string
}.
Arguments moveTo {World Picture} _ _ _ _.
Arguments click_ {World Picture} _ _ _ _ _ _.
Arguments typewrite {World Picture} _ _ _ _.
Arguments press {World Picture} _ _ _.
Arguments hotkey {World Picture} _ _ _.
Arguments locateCenterOnScreen {World Picture} _ _ _ _.
Arguments screenshot {World Picture} _ _.
Arguments size {World Picture} _ _.
Arguments Image_open {World Picture} _ _ _.
Arguments save {World Picture} _ _ _ _.
Arguments info {World Picture} _ _ _ _.
Arguments repr_str {World Picture} _ _.

(** ** The process *)

(** The state a tool call runs in: the module global [PILImage], the
    world, and the log of collaborator calls made so far. *)
Record Process (World Picture : Type) := {
  PILImage : option PILModule;
  desktop : World;
  calls : list (Event Picture)
}.
Arguments PILImage {World Picture} _.
Arguments desktop {World Picture} _.
Arguments calls {World Picture} _.
Arguments Build_Process {World Picture} _ _ _.

(** [try: from PIL import Image as PILImage / except ImportError:
    PILImage = None]. *)
Definition import_PIL (pillow_installed : bool) : option PILModule :=
  if pillow_installed then Some PIL_Image else None.

(** The top level of the module up to the tool definitions: without
    [pyautogui] the process exits ([None]); without Pillow it goes on with
    [PILImage = None] (and prints a warning). *)
Definition startup {World Picture} (pillow_installed pyautogui_installed : bool)
    (w : World) : option (Process World Picture) :=
  let pil := import_PIL pillow_installed in
  if pyautogui_installed
  then Some {| PILImage := pil; desktop := w; calls := [] |}
  else None.

(** State and exception monad. *)
Definition M (World Picture A : Type) : Type :=
  Process World Picture → Process World Picture * Res A.

Section Monad.
Context {World Picture : Type}.
Local Abbreviation M := (M World Picture).
Local Abbreviation Process := (Process World Picture).

#[export] Instance M_ret : MRet M := fun A a st => (st, Ok a).
#[export] Instance M_bind : MBind M := fun A B f m st =>
  match m st with
  | (st', Ok a) => f a st'
  | (st', Raise e) => (st', Raise e)
  end.

Definition raise {A} (e : PyExc) : M A := fun st => (st, Raise e).

(** Evaluate something that has no effect on the process. *)
Definition eval {A} (r : Res A) : M A := fun st => (st, r).

Definition pure_call {A} (r : Res A) : World → World * Res A :=
  fun w => (w, r).

(** Call a collaborator: log the call, run it in the current world. *)
Definition invoke {A} (ev : Event Picture) (prim : World → World * Res A)
    : M A :=
  fun st =>
    let (w', r) := prim (desktop st) in
    ({| PILImage := PILImage st; desktop := w';
        calls := calls st ++ [ev] |}, r).

(** Read the global [PILImage]. *)
Definition global_PILImage : M (option PILModule) :=
  fun st => (st, Ok (PILImage st)).

(** [except <expr> as e: <body>]. *)
Record ExceptClause (A : Type) := {
  clause_expr : Res PyObject;
  clause_body : PyExc → M A
}.
Arguments clause_expr {A} _.
Arguments clause_body {A} _ _.

Definition except {A} (c : PyClass) (body : PyExc → M A) : ExceptClause A :=
  {| clause_expr := Ok (ObjClass c); clause_body := body |}.

(** The search for a handler.  The clauses are tried in order; the
    expression of a clause is evaluated when the clause is reached, and
    if that evaluation raises, the search is abandoned and the new
    exception leaves the [try] statement: later clauses of the same
    statement do not see it. *)
Fixpoint handle {A} (e : PyExc) (clauses : list (ExceptClause A)) : M A :=
  match clauses with
  | [] => raise e
  | c :: rest =>
      match clause_expr c ≫= exception_matches e with
      | Raise e' => raise e'
      | Ok true => clause_body c e
      | Ok false => handle e rest
      end
  end.

Definition try_except {A} (body : M A) (clauses : list (ExceptClause A))
    : M A :=
  fun st =>
    match body st with
    | (st', Ok a) => (st', Ok a)
    | (st', Raise e) => handle e clauses st'
    end.

End Monad.
Arguments clause_expr {World Picture A} _.
Arguments clause_body {World Picture A} _ _.

(** [SomeError("message")]. *)
Definition new (c : PyClass) (message : string) : PyExc :=
  {| exc_class := c; exc_str := message |}.

(** [repr] of a list of [str]. *)
Definition repr_list (repr : string → string) (l : list string) : string :=
  "[" +:+ String.concat ", " (map repr l) +:+ "]".


(** ** Declared constraints

    A parameter annotated [Field(..., ge=a, le=b)] is checked by pydantic
    before the function is called.  pydantic's [ValidationError] is a
    [ValueError]; the entry it reports names the parameter and the kind of
    bound that is violated.  The upper bound is tested first, so a NaN
    under both bounds is reported against [le]. *)
Definition ValidationError : PyClass :=
  subclass_of "pydantic.ValidationError" ValueError.

Record Field (A : Type) := {
  description : string;
  ge : option A;
  le : option A
}.
Arguments description {A} _.
Arguments ge {A} _.
Arguments le {A} _.

Definition validation_error (param kind : string) : PyExc :=
  new ValidationError (param +:+ ": " +:+ kind).

Definition check_Field {A} (leb : A → A → bool) (param : string)
    (f : Field A) (v : A) : Res A :=
  let check_ge :=
    match ge f with
    | Some a => if leb a v then Ok v
                else Raise (validation_error param "greater_than_equal")
    | None => Ok v
    end in
  match le f with
  | Some b => if leb v b then check_ge
              else Raise (validation_error param "less_than_equal")
  | None => check_ge
  end.

(** The fields of [server.py] that carry a bound. *)
Definition clicks_Field : Field Z :=
  {| description := "Number of clicks."; ge := Some 1; le := None |}.
Definition interval_Field : Field float :=
  {| description := "Interval in seconds between key presses.";
     ge := Some float_0_0; le := None |}.
Definition confidence_Field : Field float :=
  {| description := "Confidence level (0.0 to 1.0) for the match.";
     ge := Some float_0_0; le := Some float_1_0 |}.

(** ** The tools of [server.py] *)

(** What a tool hands back to the framework. *)
Inductive ToolResult :=
| ret_None
| ret_dict (d : gmap string Z)
| ret_Image (i : Image).

(** A call as the framework receives it; an optional parameter that the
    caller leaves out is [None] here and takes the declared default. *)
Inductive ToolCall :=
| call_move_to (x y : Z)
| call_click (x y : Z) (button : option Button.t) (clicks : option Z)
    (ctx : option Context)
| call_type_text (text : string) (interval : option float)
| call_press_key (key : string)
| call_press_hotkey (keys : list string)
| call_find_image_on_screen (image_data_base64 : string)
    (confidence : option float)
| call_take_screenshot
| call_get_screen_size.

(** The two tools that need Pillow. *)
Definition is_imaging_tool (c : ToolCall) : bool :=
  match c with
  | call_find_image_on_screen _ _ | call_take_screenshot => true
  | _ => false
  end.

Definition Pillow_required : string :=
  "Pillow (PIL) library is required for this tool but not installed.".

Section Server.
Context {World Picture : Type}.
Variable pf : Platform World Picture.
Local Abbreviation M := (M World Picture).
Local Abbreviation Process := (Process World Picture).

Definition move_to (x y : Z) : M unit :=
  try_except
    (invoke (pyautogui_moveTo x y) (moveTo pf x y))
    [ except Exception (fun e =>
        raise (new RuntimeError
                 ("Failed to move mouse to (" +:+ pretty x +:+ ", " +:+
                  pretty y +:+ "): " +:+ exc_str e))) ].

Definition click (x y : Z) (button : Button.t) (clicks : Z)
    (ctx : option Context) : M unit :=
  match ctx with
  | Some c =>
      let message :=
        "Clicking at (" +:+ pretty x +:+ ", " +:+ pretty y +:+ ") with " +:+
        Button.str button +:+ " button, " +:+ pretty clicks +:+ " times." in
      invoke (ctx_info message) (info pf c message)
  | None => mret tt
  end ;;
  try_except
    (invoke (pyautogui_click x y button clicks) (click_ pf x y button clicks))
    [ except Exception (fun e =>
        raise (new RuntimeError
                 ("Failed to click at (" +:+ pretty x +:+ ", " +:+ pretty y
                  +:+ ") with " +:+ Button.str button +:+ " button, " +:+
                  pretty clicks +:+ " times: " +:+ exc_str e))) ].

Definition type_text (text : string) (interval : float) : M unit :=
  try_except
    (invoke (pyautogui_typewrite text interval) (typewrite pf text interval))
    [ except Exception (fun e =>
        raise (new RuntimeError ("Failed to type text: " +:+ exc_str e))) ].

Definition press_key (key : string) : M unit :=
  try_except
    (invoke (pyautogui_press key) (press pf key))
    [ except Exception (fun e =>
        raise (new ValueError
                 ("Failed to press key '" +:+ key +:+ "': " +:+ exc_str e
                  +:+ ". Ensure it's a valid key name."))) ].

Definition press_hotkey (keys : list string) : M unit :=
  try_except
    (invoke (pyautogui_hotkey keys) (hotkey pf keys))
    [ except Exception (fun e =>
        raise (new ValueError
                 ("Failed to press hotkey combination " +:+
                  repr_list (repr_str pf) keys +:+ ": " +:+ exc_str e +:+
                  ". Ensure all key names are valid."))) ].

Definition find_image_on_screen (image_data_base64 : string)
    (confidence : float) : M (option (gmap string Z)) :=
  pil ← global_PILImage;
  match pil with
  | None => raise (new RuntimeError Pillow_required)
  | Some PIL_Image =>
      try_except
        (image_bytes ← invoke (base64_b64decode image_data_base64)
                         (pure_call (base64.b64decode image_data_base64));
         image ← invoke (PILImage_open image_bytes)
                   (Image_open pf image_bytes);
         location ← invoke (pyautogui_locateCenterOnScreen image confidence)
                      (locateCenterOnScreen pf image confidence);
         match location with
         | None => mret None
         | Some location =>
             mret (Some {[ "x" := Point_x location;
                           "y" := Point_y location ]})
         end)
        [ {| clause_expr := getattr base64.module "Error";
             clause_body := fun _ =>
               raise (new ValueError
                        "Invalid Base64 string provided for image data.") |};
          except Exception (fun e =>
            raise (new RuntimeError
                     ("An error occurred while trying to find the image: "
                      +:+ exc_str e))) ]
  end.

Definition take_screenshot : M Image :=
  pil ← global_PILImage;
  match pil with
  | None => raise (new RuntimeError Pillow_required)
  | Some PIL_Image =>
      try_except
        (screenshot_pil ← invoke pyautogui_screenshot (screenshot pf);
         img_bytes ← invoke (Picture_save screenshot_pil "PNG")
                       (save pf screenshot_pil "PNG");
         mret {| Image_data := img_bytes; Image_format := "png" |})
        [ except Exception (fun e =>
            raise (new RuntimeError
                     ("Failed to take screenshot: " +:+ exc_str e))) ]
  end.

Definition get_screen_size : M (gmap string Z) :=
  try_except
    ('(width, height) ← invoke pyautogui_size (size pf);
     mret {[ "width" := width; "height" := height ]})
    [ except Exception (fun e =>
        raise (new RuntimeError
                 ("Failed to get screen size: " +:+ exc_str e))) ].

(** *** Dispatch

    The framework fills in the defaults, checks the declared bounds, and
    only then calls the function. *)
Definition call_tool (c : ToolCall) : M ToolResult :=
  match c with
  | call_move_to x y => move_to x y ;; mret ret_None
  | call_click x y button clicks ctx =>
      clicks ← eval (check_Field Z.leb "clicks" clicks_Field
                       (default 1 clicks));
      click x y (default Button.left button) clicks ctx ;; mret ret_None
  | call_type_text text interval =>
      interval ← eval (check_Field SFleb "interval" interval_Field
                         (default float_0_0 interval));
      type_text text interval ;; mret ret_None
  | call_press_key key => press_key key ;; mret ret_None
  | call_press_hotkey keys => press_hotkey keys ;; mret ret_None
  | call_find_image_on_screen image_data_base64 confidence =>
      confidence ← eval (check_Field SFleb "confidence" confidence_Field
                           (default float_0_9 confidence));
      r ← find_image_on_screen image_data_base64 confidence;
      mret (match r with Some d => ret_dict d | None => ret_None end)
  | call_take_screenshot => i ← take_screenshot; mret (ret_Image i)
  | call_get_screen_size => d ← get_screen_size; mret (ret_dict d)
  end.

(** The process handles one call after the other; a call that raises is
    reported to its caller and the process goes on. *)
Fixpoint serve (cs : list ToolCall) (st : Process)
    : Process * list (Res ToolResult) :=
  match cs with
  | [] => (st, [])
  | c :: cs' =>
      let (st1, r) := call_tool c st in
      let (st2, rs) := serve cs' st1 in
      (st2, r :: rs)
  end.

End Server.

Arguments getattr : simpl never.

(** ** The error taxonomy *)

Inductive ErrorKind :=
| InvalidArgument
| ActionFailed
| CaptureFailed
| MatchFailed
| UnknownTool
| DependencyUnavailable.

(** Modelled from the spec: the kinds of ErrorSignal (sections 4.3, 4.6
    and 7).  [server.py] declares no kinds; it raises [ValueError] and
    [RuntimeError] with a message, so the kind is read off the exception
    that reaches the caller, by the message its raise statement builds.
    A failure of an input primitive that the tool caught is a failed
    action: the [ValueError] of [press_key] and [press_hotkey] and the
    [RuntimeError] of [move_to], [click] and [type_text].  Any other
    [ValueError] (pydantic's validation error, the invalid base64 string)
    is an invalid argument.  The Pillow message is the missing
    dependency; the messages of [find_image_on_screen], and of
    [take_screenshot] and [get_screen_size], are a failed match and a
    failed capture.  Any other exception belongs to no kind. *)
Definition kind_of (e : PyExc) : option ErrorKind :=
  if isinstance e ValueError then
    if String.prefix "Failed to press key '" (exc_str e)
       || String.prefix "Failed to press hotkey combination " (exc_str e)
    then Some ActionFailed
    else Some InvalidArgument
  else if isinstance e RuntimeError then
    if bool_decide (exc_str e = Pillow_required)
    then Some DependencyUnavailable
    else if String.prefix
              "An error occurred while trying to find the image: " (exc_str e)
    then Some MatchFailed
    else if String.prefix "Failed to take screenshot: " (exc_str e)
            || String.prefix "Failed to get screen size: " (exc_str e)
    then Some CaptureFailed
    else if String.prefix "Failed to move mouse to (" (exc_str e)
            || String.prefix "Failed to click at (" (exc_str e)
            || String.prefix "Failed to type text: " (exc_str e)
    then Some ActionFailed
    else None
  else None.

(** ** A small desktop

    A concrete platform on which the tools can be run: a desktop with a
    pointer, a record of the keys it received, a display that can be
    switched off, and one icon that may be visible.  A picture is the
    sequence of its bytes. *)
Module Demo.

Record Desktop := {
  pointer : Z * Z;
  keys_received : list string;
  display_on : bool;
  icon_visible : bool
}.

(** The key names this desktop knows. *)
Definition KEYBOARD_KEYS : list string :=
  [ "enter"; "esc"; "f1"; "ctrl"; "alt"; "shift"; "tab"; "a"; "c"; "v" ].

Definition OSError : PyClass := subclass_of "OSError" Exception.
Definition UnidentifiedImageError : PyClass :=
  subclass_of "PIL.UnidentifiedImageError" OSError.

Definition with_pointer (d : Desktop) (p : Z * Z) : Desktop :=
  {| pointer := p; keys_received := keys_received d;
     display_on := display_on d; icon_visible := icon_visible d |}.

Definition with_keys (d : Desktop) (ks : list string) : Desktop :=
  {| pointer := pointer d; keys_received := keys_received d ++ ks;
     display_on := display_on d; icon_visible := icon_visible d |}.

(** A key name outside [KEYBOARD_KEYS] is ignored without an error. *)
Definition known (ks : list string) : list string :=
  filter (fun k => k ∈ KEYBOARD_KEYS) ks.

Definition icon : bytes := [Byte.x89; Byte.x50; Byte.x4e; Byte.x47].
Definition icon_center : Point := {| Point_x := 40; Point_y := 30 |}.
Definition screen_content : bytes :=
  [Byte.x89; Byte.x50; Byte.x4e; Byte.x47; Byte.x0d; Byte.x0a].

Definition platform : Platform Desktop bytes :=
  {| moveTo := fun x y d => (with_pointer d (x, y), Ok tt);
     click_ := fun x y _ _ d => (with_pointer d (x, y), Ok tt);
     typewrite := fun text _ d => (with_keys d [text], Ok tt);
     press := fun key d => (with_keys d (known [key]), Ok tt);
     hotkey := fun keys d => (with_keys d (known keys), Ok tt);
     locateCenterOnScreen := fun image _ d =>
       if display_on d then
         (d, Ok (if icon_visible d && bool_decide (image = icon)
                 then Some icon_center else None))
       else (d, Raise (new OSError "cannot open display"));
     screenshot := fun d =>
       if display_on d then (d, Ok screen_content)
       else (d, Raise (new OSError "cannot open display"));
     size := fun d => (d, Ok (1920, 1080));
     Image_open := fun data d =>
       match data with
       | [] => (d, Raise (new UnidentifiedImageError
                            "cannot identify image file"))
       | _ => (d, Ok data)
       end;
     save := fun image _ d => (d, Ok image);
     info := fun _ _ d => (d, Ok tt);
     repr_str := fun s => "'" +:+ s +:+ "'" |}.

(** The same platform with a fault: every pointer, keyboard, size and
    context primitive raises [e] and leaves the desktop as it is. *)
Definition FailSafeException : PyClass :=
  subclass_of "pyautogui.FailSafeException" Exception.

Definition faulty (e : PyExc) : Platform Desktop bytes :=
  {| moveTo := fun _ _ d => (d, Raise e);
     click_ := fun _ _ _ _ d => (d, Raise e);
     typewrite := fun _ _ d => (d, Raise e);
     press := fun _ d => (d, Raise e);
     hotkey := fun _ d => (d, Raise e);
     locateCenterOnScreen := locateCenterOnScreen platform;
     screenshot := screenshot platform;
     size := fun d => (d, Raise e);
     Image_open := Image_open platform;
     save := fun _ _ d => (d, Raise e);
     info := fun _ _ d => (d, Raise e);
     repr_str := repr_str platform |}.

(** The same platform with the other convention of the search: no
    match is reported by raising [ImageNotFoundException]. *)
Definition PyAutoGUIException : PyClass :=
  subclass_of "pyautogui.PyAutoGUIException" Exception.
Definition ImageNotFoundException : PyClass :=
  subclass_of "pyautogui.ImageNotFoundException" PyAutoGUIException.

Definition raising : Platform Desktop bytes :=
  {| moveTo := moveTo platform;
     click_ := click_ platform;
     typewrite := typewrite platform;
     press := press platform;
     hotkey := hotkey platform;
     locateCenterOnScreen := fun image _ d =>
       if display_on d then
         if icon_visible d && bool_decide (image = icon)
         then (d, Ok (Some icon_center))
         else (d, Raise (new ImageNotFoundException ""))
       else (d, Raise (new OSError "cannot open display"));
     screenshot := screenshot platform;
     size := size platform;
     Image_open := Image_open platform;
     save := save platform;
     info := info platform;
     repr_str := repr_str platform |}.

(** The same platform with a click that raises [e]; the context
    works. *)
Definition stuck_button (e : PyExc) : Platform Desktop bytes :=
  {| moveTo := moveTo platform;
     click_ := fun _ _ _ _ d => (d, Raise e);
     typewrite := typewrite platform;
     press := press platform;
     hotkey := hotkey platform;
     locateCenterOnScreen := locateCenterOnScreen platform;
     screenshot := screenshot platform;
     size := size platform;
     Image_open := Image_open platform;
     save := save platform;
     info := info platform;
     repr_str := repr_str platform |}.

Definition desk (display icon_shown : bool) : Desktop :=
  {| pointer := (0, 0); keys_received := [];
     display_on := display; icon_visible := icon_shown |}.

(** A process that started with Pillow ([true]) or without it. *)
Definition process (pillow_installed display icon_shown : bool)
    : Process Desktop bytes :=
  {| PILImage := import_PIL pillow_installed;
     desktop := desk display icon_shown; calls := [] |}.

End Demo.

(** ** Notions used in the statements *)

(** Do the arguments of a call satisfy the declared bounds? *)
Definition arguments_valid (c : ToolCall) : bool :=
  match c with
  | call_click _ _ _ clicks _ =>
      is_Ok (check_Field Z.leb "clicks" clicks_Field (default 1 clicks))
  | call_type_text _ interval =>
      is_Ok (check_Field SFleb "interval" interval_Field
               (default float_0_0 interval))
  | call_find_image_on_screen _ confidence =>
      is_Ok (check_Field SFleb "confidence" confidence_Field
               (default float_0_9 confidence))
  | _ => true
  end.

(** The events of the imaging tools: decoding the argument, opening the
    picture, searching or capturing the screen, encoding the capture. *)
Definition is_imaging_event {Picture} (ev : Event Picture) : bool :=
  match ev with
  | base64_b64decode _ | PILImage_open _
  | pyautogui_locateCenterOnScreen _ _ | pyautogui_screenshot
  | Picture_save _ _ => true
  | _ => false
  end.

(** The same process with another value of the global [PILImage]. *)
Definition set_PILImage {World Picture} (pil : option PILModule)
    (st : Process World Picture) : Process World Picture :=
  {| PILImage := pil; desktop := desktop st; calls := calls st |}.

(** A computation that never assigns the global [PILImage]. *)
Definition keeps_PILImage {World Picture A} (m : M World Picture A) : Prop :=
  ∀ st, PILImage (m st).1 = PILImage st.

(** A computation that neither reads nor assigns the global [PILImage]:
    run with another value of the global, it does the same thing. *)
Definition ignores_PILImage {World Picture A} (m : M World Picture A) : Prop :=
  ∀ pil st, m (set_PILImage pil st) = (set_PILImage pil (m st).1, (m st).2).

(** A computation that only appends to the log, and appends only events
    that satisfy [ok]. *)
Definition logs_only {World Picture A} (ok : Event Picture → bool)
    (m : M World Picture A) : Prop :=
  ∀ st, ∃ evs, calls (m st).1 = calls st ++ evs ∧ forallb ok evs = true.

(** The exception of the missing dependency and the one that leaves
    [find_image_on_screen] when the lookup of [base64.Error] fails. *)
Definition Pillow_missing : PyExc := new RuntimeError Pillow_required.
Definition base64_Error_missing : PyExc :=
  new AttributeError "module 'base64' has no attribute 'Error'".

(** The [annotations] dictionary of each [@mcp.tool(...)] decorator; a
    key that the decorator leaves out is [None]. *)
Record Annotations := {
  title : string;
  readOnlyHint : option bool;
  destructiveHint : option bool;
  openWorldHint : option bool
}.

Definition annotations (c : ToolCall) : Annotations :=
  let destructive t :=
    {| title := t; readOnlyHint := None; destructiveHint := Some true;
       openWorldHint := Some true |} in
  let read_only t :=
    {| title := t; readOnlyHint := Some true; destructiveHint := None;
       openWorldHint := Some true |} in
  match c with
  | call_move_to _ _ => destructive "Move Mouse"
  | call_click _ _ _ _ _ => destructive "Click Mouse"
  | call_type_text _ _ => destructive "Type Text"
  | call_press_key _ => destructive "Press Key"
  | call_press_hotkey _ => destructive "Press Hotkey"
  | call_find_image_on_screen _ _ => read_only "Find Image on Screen"
  | call_take_screenshot => read_only "Take Screenshot"
  | call_get_screen_size => read_only "Get Screen Size"
  end.

(** The tools annotated [readOnlyHint: True]. *)
Definition is_read_only_tool (c : ToolCall) : bool :=
  match readOnlyHint (annotations c) with
  | Some true => true
  | _ => false
  end.

(** A call that leaves out every optional parameter. *)
Definition omits_optionals (c : ToolCall) : bool :=
  match c with
  | call_click _ _ None None _ | call_type_text _ None
  | call_find_image_on_screen _ None => true
  | call_click _ _ _ _ _ | call_type_text _ _
  | call_find_image_on_screen _ _ => false
  | _ => true
  end.

(** The sign test [v >= 0.0] on a float, case by case. *)
Definition float_nonnegative (v : float) : bool :=
  match v with
  | S754_zero _ => true
  | S754_infinity s => negb s
  | S754_nan => false
  | S754_finite s _ _ => negb s
  end.

(** A character with no value in the base64 alphabet (the pad [=] is
    such a character). *)
Definition outside_base64 (c : Ascii.ascii) : bool :=
  match binascii.table_a2b_base64 c with
  | Some _ => false
  | None => true
  end.

(** ** Standard library facts *)

Lemma base64_has_no_Error :
  getattr base64.module "Error" = Raise base64_Error_missing.
Proof. vm_compute. reflexivity. Qed.

Lemma prefix_append (p s : string) : String.prefix p (p +:+ s) = true.
Proof.
  induction p as [|a p IH]; simpl.
  - destruct s; reflexivity.
  - destruct (Ascii.ascii_dec a a) as [_|Hne]; [exact IH | congruence].
Qed.

Lemma check_Field_value {A} (leb : A → A → bool) param f v :
  is_Ok (check_Field leb param f v) = true →
  check_Field leb param f v = Ok v.
Proof.
  unfold check_Field.
  destruct (ge f) as [a|], (le f) as [b|]; simpl;
    repeat match goal with |- context [if ?c then _ else _] =>
             destruct c; simpl end;
    congruence.
Qed.

(** ** Frame lemmas of the monad *)

Ltac run :=
  repeat progress
    (unfold try_except, invoke, pure_call, global_PILImage, raise, eval,
       mbind, M_bind, Res_bind, mret, M_ret, Res_ret, except;
     cbn [desktop calls PILImage fst snd handle clause_expr clause_body
          exception_matches]).

Section Frames.
Context {World Picture : Type}.
Local Abbreviation M := (M World Picture).
Local Abbreviation keeps :=
  (keeps_PILImage (World:=World) (Picture:=Picture)).
Local Abbreviation ignores :=
  (ignores_PILImage (World:=World) (Picture:=Picture)).

Lemma keeps_ret {A} (a : A) : keeps (mret a : M A).
Proof. intros st. reflexivity. Qed.

Lemma keeps_raise {A} e : keeps (raise e : M A).
Proof. intros st. reflexivity. Qed.

Lemma keeps_eval {A} (r : Res A) : keeps (eval r : M A).
Proof. intros st. reflexivity. Qed.

Lemma keeps_global : keeps (global_PILImage : M _).
Proof. intros st. reflexivity. Qed.

Lemma keeps_invoke {A} ev (prim : World → World * Res A) :
  keeps (invoke ev prim : M A).
Proof. intros st. unfold invoke. destruct (prim (desktop st)). reflexivity. Qed.

Lemma keeps_bind {A B} (m : M A) (f : A → M B) :
  keeps m → (∀ a, keeps (f a)) → keeps (m ≫= f).
Proof.
  intros Hm Hf st. specialize (Hm st). unfold mbind, M_bind.
  destruct (m st) as [st' [a|e]]; simpl in *; [|exact Hm].
  rewrite Hf. exact Hm.
Qed.

Lemma keeps_handle {A} e (clauses : list (ExceptClause A)) :
  Forall (fun c => ∀ e, keeps (clause_body c e)) clauses →
  keeps (handle e clauses).
Proof.
  induction 1 as [|c rest Hc _ IH]; simpl; [apply keeps_raise|].
  destruct (clause_expr c ≫= exception_matches e) as [[]|e'];
    [apply Hc | exact IH | apply keeps_raise].
Qed.

Lemma keeps_try_except {A} (body : M A) clauses :
  keeps body →
  Forall (fun c => ∀ e, keeps (clause_body c e)) clauses →
  keeps (try_except body clauses).
Proof.
  intros Hb Hc st. specialize (Hb st). unfold try_except.
  destruct (body st) as [st' [a|e]]; simpl in *; [exact Hb|].
  rewrite (keeps_handle e clauses Hc). exact Hb.
Qed.

Lemma ignores_ret {A} (a : A) : ignores (mret a : M A).
Proof. intros pil st. reflexivity. Qed.

Lemma ignores_raise {A} e : ignores (raise e : M A).
Proof. intros pil st. reflexivity. Qed.

Lemma ignores_eval {A} (r : Res A) : ignores (eval r : M A).
Proof. intros pil st. reflexivity. Qed.

Lemma ignores_invoke {A} ev (prim : World → World * Res A) :
  ignores (invoke ev prim : M A).
Proof.
  intros pil st. unfold invoke. simpl.
  destruct (prim (desktop st)). reflexivity.
Qed.

Lemma ignores_bind {A B} (m : M A) (f : A → M B) :
  ignores m → (∀ a, ignores (f a)) →
  ignores (m ≫= f).
Proof.
  intros Hm Hf pil st. unfold mbind, M_bind. rewrite Hm.
  destruct (m st) as [st' [a|e]]; simpl; [|reflexivity].
  rewrite Hf. reflexivity.
Qed.

Lemma ignores_handle {A} e (clauses : list (ExceptClause A)) :
  Forall (fun c => ∀ e, ignores (clause_body c e)) clauses →
  ignores (handle e clauses).
Proof.
  induction 1 as [|c rest Hc _ IH]; simpl; [apply ignores_raise|].
  destruct (clause_expr c ≫= exception_matches e) as [[]|e'];
    [apply Hc | exact IH | apply ignores_raise].
Qed.

Lemma ignores_try_except {A} (body : M A) clauses :
  ignores body →
  Forall (fun c => ∀ e, ignores (clause_body c e)) clauses →
  ignores (try_except body clauses).
Proof.
  intros Hb Hc pil st. unfold try_except. rewrite Hb.
  destruct (body st) as [st' [a|e]]; simpl; [reflexivity|].
  rewrite (ignores_handle e clauses Hc). reflexivity.
Qed.

End Frames.

Create HintDb frame.
#[export] Hint Resolve keeps_ret keeps_raise keeps_eval keeps_global
  keeps_invoke keeps_bind keeps_handle keeps_try_except
  ignores_ret ignores_raise ignores_eval ignores_invoke ignores_bind
  ignores_handle ignores_try_except : frame.

Ltac frame :=
  repeat first
    [ progress intros
    | apply keeps_bind | apply keeps_try_except
    | apply ignores_bind | apply ignores_try_except
    | apply Forall_cons_2 | apply Forall_nil_2
    | progress (unfold except; cbn [clause_body])
    | match goal with
      | |- keeps_PILImage (match ?x with _ => _ end) => destruct x
      | |- ignores_PILImage (match ?x with _ => _ end) => destruct x
      end
    | solve [auto with frame] ].

(** ** Properties of the tools *)

Section Properties.
Context {World Picture : Type}.
Variable pf : Platform World Picture.
Local Abbreviation Process := (Process World Picture).

(** No tool assigns the global [PILImage]. *)
Lemma call_tool_keeps_PILImage (c : ToolCall) :
  keeps_PILImage (call_tool pf c).
Proof.
  destruct c; unfold call_tool, move_to, click, type_text, press_key,
    press_hotkey, find_image_on_screen, take_screenshot, get_screen_size;
    frame.
Qed.

Lemma serve_keeps_PILImage (cs : list ToolCall) (st : Process) :
  PILImage (serve pf cs st).1 = PILImage st.
Proof.
  revert st. induction cs as [|c cs IH]; intros st; simpl; [reflexivity|].
  pose proof (call_tool_keeps_PILImage c st) as Hc.
  destruct (call_tool pf c st) as [st1 r]; simpl in Hc.
  specialize (IH st1). destruct (serve pf cs st1) as [st2 rs]; simpl in *.
  congruence.
Qed.

(** The six tools other than the imaging ones do not look at it. *)
Lemma call_tool_ignores_PILImage (c : ToolCall) :
  is_imaging_tool c = false → ignores_PILImage (call_tool pf c).
Proof.
  destruct c; simpl; try discriminate; intros _;
    unfold move_to, click, type_text, press_key, press_hotkey,
      get_screen_size; frame.
Qed.

(** *** Without Pillow *)

Lemma find_image_on_screen_without_Pillow s conf (st : Process) :
  PILImage st = None →
  find_image_on_screen pf s conf st = (st, Raise Pillow_missing).
Proof. intros H. unfold find_image_on_screen. run. rewrite H. reflexivity. Qed.

Lemma take_screenshot_without_Pillow (st : Process) :
  PILImage st = None → take_screenshot pf st = (st, Raise Pillow_missing).
Proof. intros H. unfold take_screenshot. run. rewrite H. reflexivity. Qed.

Lemma imaging_call_without_Pillow (c : ToolCall) (st : Process) :
  PILImage st = None → is_imaging_tool c = true → arguments_valid c = true →
  call_tool pf c st = (st, Raise Pillow_missing).
Proof.
  intros H Hc Hv. destruct c; try discriminate; simpl in *.
  - apply check_Field_value in Hv.
    unfold mbind, M_bind, eval. rewrite Hv.
    rewrite find_image_on_screen_without_Pillow by exact H. reflexivity.
  - unfold mbind, M_bind.
    rewrite take_screenshot_without_Pillow by exact H. reflexivity.
Qed.

Lemma kind_of_Pillow_missing :
  kind_of Pillow_missing = Some DependencyUnavailable.
Proof. reflexivity. Qed.

Lemma serve_results_without_Pillow (cs : list ToolCall) (st : Process) :
  PILImage st = None →
  ∀ (i : nat) (c : ToolCall),
    cs !! i = Some c → is_imaging_tool c = true → arguments_valid c = true →
    (serve pf cs st).2 !! i = Some (Raise Pillow_missing).
Proof.
  revert st. induction cs as [|c0 cs IH]; intros st H i c Hi Hc Hv;
    [discriminate|].
  simpl. pose proof (call_tool_keeps_PILImage c0 st) as Hk.
  destruct i as [|i]; simpl in Hi.
  - injection Hi as ->.
    rewrite (imaging_call_without_Pillow c st H Hc Hv).
    destruct (serve pf cs st) as [st2 rs]. reflexivity.
  - destruct (call_tool pf c0 st) as [st1 r]; simpl in Hk.
    assert (PILImage st1 = None) as H1 by congruence.
    specialize (IH st1 H1 i c Hi Hc Hv).
    destruct (serve pf cs st1) as [st2 rs]. exact IH.
Qed.

(** C3. When Pillow failed to import at startup, every invocation of
    [find_image_on_screen] and of [take_screenshot], at any point of the
    life of the process, raises the [RuntimeError] of the missing
    dependency, whose kind is [DependencyUnavailable] and none of the
    other five kinds; the call leaves the process as it found it (no
    collaborator is called), and the global stays [None] whatever calls
    are served. *)
Theorem imaging_tools_unavailable_for_the_lifetime :
  ∀ (w : World) (st0 : Process) (cs : list ToolCall),
    startup false true w = Some st0 →
    (∀ (i : nat) (c : ToolCall),
       cs !! i = Some c → is_imaging_tool c = true →
       arguments_valid c = true →
       (serve pf cs st0).2 !! i = Some (Raise Pillow_missing)) ∧
    PILImage (serve pf cs st0).1 = None ∧
    (∀ (st : Process) s conf,
       PILImage st = None →
       find_image_on_screen pf s conf st = (st, Raise Pillow_missing) ∧
       take_screenshot pf st = (st, Raise Pillow_missing)) ∧
    kind_of Pillow_missing = Some DependencyUnavailable ∧
    (∀ k, k ∈ [InvalidArgument; ActionFailed; CaptureFailed; MatchFailed;
               UnknownTool] → kind_of Pillow_missing ≠ Some k).
Proof.
  intros w st0 cs Hstart. injection Hstart as <-.
  split; [|split; [|split; [|split]]].
  - apply serve_results_without_Pillow. reflexivity.
  - rewrite serve_keeps_PILImage. reflexivity.
  - intros st s conf H. split.
    + apply find_image_on_screen_without_Pillow, H.
    + apply take_screenshot_without_Pillow, H.
  - apply kind_of_Pillow_missing.
  - intros k Hk. rewrite kind_of_Pillow_missing. intros [= <-].
    repeat (apply elem_of_cons in Hk as [Hk|Hk]; [discriminate|]).
    by apply elem_of_nil in Hk.
Qed.

(** C10. The six tools [move_to], [click], [type_text], [press_key],
    [press_hotkey] and [get_screen_size] behave the same with and without
    Pillow: from two processes that differ only in the global [PILImage],
    a call returns the same result, leaves the same world and logs the
    same collaborator calls. *)
Theorem input_tools_do_not_depend_on_Pillow :
  ∀ (c : ToolCall) (pil1 pil2 : option PILModule) (w : World)
    (log : list (Event Picture)),
    is_imaging_tool c = false →
    let r1 := call_tool pf c {| PILImage := pil1; desktop := w; calls := log |} in
    let r2 := call_tool pf c {| PILImage := pil2; desktop := w; calls := log |} in
    r1.2 = r2.2 ∧ desktop r1.1 = desktop r2.1 ∧ calls r1.1 = calls r2.1 ∧
    PILImage r1.1 = pil1 ∧ PILImage r2.1 = pil2.
Proof.
  intros c pil1 pil2 w log Hc r1 r2.
  pose proof (call_tool_ignores_PILImage c Hc pil2
                {| PILImage := pil1; desktop := w; calls := log |}) as H.
  change (r2 = (set_PILImage pil2 r1.1, r1.2)) in H.
  pose proof (call_tool_keeps_PILImage c
                {| PILImage := pil1; desktop := w; calls := log |}) as Hk.
  change (PILImage r1.1 = pil1) in Hk.
  rewrite H. simpl. auto.
Qed.

End Properties.

(** C9. Without Pillow the error of [find_image_on_screen] is raised
    before the argument is decoded and before anything is captured or
    searched: the process is returned unchanged (same world, same log of
    collaborator calls), and the outcome is the same whatever the
    arguments and whatever the collaborators would have done; likewise
    for [take_screenshot]. *)
Theorem missing_Pillow_is_raised_before_any_work :
  ∀ {World Picture : Type} (pf pf' : Platform World Picture)
    (s s' : string) (conf conf' : float) (st : Process World Picture),
    PILImage st = None →
    find_image_on_screen pf s conf st = (st, Raise Pillow_missing) ∧
    find_image_on_screen pf' s' conf' st = find_image_on_screen pf s conf st ∧
    take_screenshot pf st = (st, Raise Pillow_missing) ∧
    take_screenshot pf' st = take_screenshot pf st.
Proof.
  intros World Picture pf pf' s s' conf conf' st H.
  rewrite !find_image_on_screen_without_Pillow,
    !take_screenshot_without_Pillow by exact H.
  done.
Qed.


Section ToolProperties.
Context {World Picture : Type}.
Variable pf : Platform World Picture.
Local Abbreviation Process := (Process World Picture).

(** The dictionary [find_image_on_screen] builds from a [Point]. *)
Lemma point_dict_lookup (p : Point) :
  let d : gmap string Z := {[ "x" := Point_x p; "y" := Point_y p ]} in
  d !! "x" = Some (Point_x p) ∧ d !! "y" = Some (Point_y p) ∧
  dom d = ({[ "x"; "y" ]} : gset string).
Proof.
  cbv zeta. split; [|split].
  - rewrite lookup_insert_eq. reflexivity.
  - rewrite lookup_insert_ne by discriminate.
    rewrite lookup_singleton_eq. reflexivity.
  - rewrite dom_insert_L, dom_singleton_L. reflexivity.
Qed.

(** With Pillow, any exception raised inside the [try] block of
    [find_image_on_screen] sets off the search for a handler; the first
    clause evaluates [base64.Error], which raises [AttributeError], and
    that is the exception that leaves the function. *)
Lemma find_image_on_screen_with_Pillow s conf (st : Process) :
  PILImage st = Some PIL_Image →
  find_image_on_screen pf s conf st =
    let log1 := calls st ++ [base64_b64decode s] in
    match base64.b64decode s with
    | Raise _ =>
        ({| PILImage := PILImage st; desktop := desktop st; calls := log1 |},
         Raise base64_Error_missing)
    | Ok image_bytes =>
        let log2 := log1 ++ [PILImage_open image_bytes] in
        match Image_open pf image_bytes (desktop st) with
        | (w1, Raise _) =>
            ({| PILImage := PILImage st; desktop := w1; calls := log2 |},
             Raise base64_Error_missing)
        | (w1, Ok image) =>
            let log3 := log2 ++ [pyautogui_locateCenterOnScreen image conf] in
            match locateCenterOnScreen pf image conf w1 with
            | (w2, Raise _) =>
                ({| PILImage := PILImage st; desktop := w2; calls := log3 |},
                 Raise base64_Error_missing)
            | (w2, Ok location) =>
                ({| PILImage := PILImage st; desktop := w2; calls := log3 |},
                 Ok ((fun p => {[ "x" := Point_x p; "y" := Point_y p ]})
                       <$> location))
            end
        end
    end.
Proof.
  destruct st as [pil w log]. cbn [PILImage desktop calls]. intros ->.
  unfold find_image_on_screen. run.
  cbv zeta. rewrite base64_has_no_Error.
  destruct (base64.b64decode s) as [image_bytes|e]; [|run; reflexivity].
  destruct (Image_open pf image_bytes w) as [w1 [image|e]];
    [|run; reflexivity].
  run.
  destruct (locateCenterOnScreen pf image conf w1) as [w2 [[location|]|e]];
    run; reflexivity.
Qed.

(** A tool of the shape [try: primitive(...) / except Exception as e:
    raise Wrapped(...)]: the primitive is called in every case; an
    exception that derives from [Exception] is replaced by the wrapped
    one, any other one passes through. *)
Lemma try_invoke_except_Exception {A} (ev : Event Picture)
    (prim : World → World * Res A) (wrap : PyExc → PyExc) (st : Process) :
  try_except (invoke ev prim) [except Exception (fun e => raise (wrap e))] st
  = ({| PILImage := PILImage st; desktop := (prim (desktop st)).1;
        calls := calls st ++ [ev] |},
     match (prim (desktop st)).2 with
     | Ok a => Ok a
     | Raise e => if isinstance e Exception then Raise (wrap e) else Raise e
     end).
Proof.
  run. destruct (prim (desktop st)) as [w' [a|e]]; run; [reflexivity|].
  destruct (isinstance e Exception); reflexivity.
Qed.

Lemma take_screenshot_with_Pillow (st : Process) :
  PILImage st = Some PIL_Image →
  take_screenshot pf st =
    let wrap e :=
      if isinstance e Exception
      then Raise (new RuntimeError ("Failed to take screenshot: " +:+ exc_str e))
      else Raise e in
    let log1 := calls st ++ [pyautogui_screenshot] in
    match screenshot pf (desktop st) with
    | (w1, Raise e) =>
        ({| PILImage := PILImage st; desktop := w1; calls := log1 |}, wrap e)
    | (w1, Ok screenshot_pil) =>
        let log2 := log1 ++ [Picture_save screenshot_pil "PNG"] in
        match save pf screenshot_pil "PNG" w1 with
        | (w2, Raise e) =>
            ({| PILImage := PILImage st; desktop := w2; calls := log2 |},
             wrap e)
        | (w2, Ok img_bytes) =>
            ({| PILImage := PILImage st; desktop := w2; calls := log2 |},
             Ok {| Image_data := img_bytes; Image_format := "png" |})
        end
    end.
Proof.
  destruct st as [pil w log]. cbn [PILImage desktop calls]. intros ->.
  unfold take_screenshot. run. cbv zeta.
  destruct (screenshot pf w) as [w1 [pic|e]]; run.
  - destruct (save pf pic "PNG" w1) as [w2 [bs|e]]; run; [reflexivity|].
    destruct (isinstance e Exception); reflexivity.
  - destruct (isinstance e Exception); reflexivity.
Qed.

Lemma kind_of_screenshot_failure message :
  kind_of (new RuntimeError ("Failed to take screenshot: " +:+ message))
  = Some CaptureFailed.
Proof.
  unfold kind_of.
  replace (isinstance (new RuntimeError _) ValueError) with false
    by reflexivity.
  replace (isinstance (new RuntimeError _) RuntimeError) with true
    by reflexivity.
  cbn [exc_str new].
  rewrite bool_decide_eq_false_2 by discriminate.
  replace (String.prefix _ _) with false by reflexivity.
  rewrite (prefix_append "Failed to take screenshot: "). reflexivity.
Qed.

(** C1. What [find_image_on_screen] does with a string that
    [base64.b64decode] rejects: the decoder is the only collaborator
    called, the handler search evaluates [base64.Error], and the call ends
    with [AttributeError] instead of the [ValueError] that the first
    [except] clause was written to raise.  The exception belongs to no
    kind of the taxonomy; in particular it is not an invalid argument. *)
Theorem find_image_on_screen_malformed_base64 :
  ∀ (s : string) (conf : float) (st : Process) (e : PyExc),
    PILImage st = Some PIL_Image →
    base64.b64decode s = Raise e →
    find_image_on_screen pf s conf st =
      ({| PILImage := PILImage st; desktop := desktop st;
          calls := calls st ++ [base64_b64decode s] |},
       Raise base64_Error_missing) ∧
    kind_of base64_Error_missing = None ∧
    base64_Error_missing ≠
      new ValueError "Invalid Base64 string provided for image data.".
Proof.
  intros s conf st e H He.
  rewrite find_image_on_screen_with_Pillow by exact H.
  cbv zeta. rewrite He. split; [reflexivity|]. split; [reflexivity|].
  discriminate.
Qed.

(** C2. What [find_image_on_screen] does when the screen holds no match
    for a reference image that decodes.  The search primitive has two
    ways to say so.  When it returns [None], the function returns [None]
    normally.  When it raises (the [ImageNotFoundException] of
    [pyautogui]), the function has no case for it: the exception falls to
    the handlers and the call ends with an exception, not with the [None]
    its docstring announces. *)
Theorem find_image_on_screen_no_match :
  ∀ (s : string) (conf : float) (st : Process) (image_bytes : bytes)
    (image : Picture) (w1 w2 : World),
    PILImage st = Some PIL_Image →
    base64.b64decode s = Ok image_bytes →
    Image_open pf image_bytes (desktop st) = (w1, Ok image) →
    let st' :=
      {| PILImage := PILImage st; desktop := w2;
         calls := calls st ++ [base64_b64decode s] ++
                  [PILImage_open image_bytes] ++
                  [pyautogui_locateCenterOnScreen image conf] |} in
    (locateCenterOnScreen pf image conf w1 = (w2, Ok None) →
       find_image_on_screen pf s conf st = (st', Ok None)) ∧
    (∀ e, locateCenterOnScreen pf image conf w1 = (w2, Raise e) →
       find_image_on_screen pf s conf st = (st', Raise base64_Error_missing)).
Proof.
  intros s conf st image_bytes image w1 w2 H Hd Ho st'. subst st'.
  rewrite find_image_on_screen_with_Pillow by exact H.
  cbv zeta. rewrite Hd, Ho. split.
  - intros Hl. rewrite Hl, <- !app_assoc. reflexivity.
  - intros e Hl. rewrite Hl, <- !app_assoc. reflexivity.
Qed.

(** C6. With Pillow and a reference image that decodes, the value
    [find_image_on_screen] returns is the dictionary with exactly the keys
    [x] and [y] holding the coordinates of the point the search reported;
    it returns a dictionary if and only if the search reported a point. *)
Theorem find_image_on_screen_returns_reported_center :
  ∀ (s : string) (conf : float) (st : Process) (image_bytes : bytes)
    (image : Picture) (w1 w2 : World) (location : option Point),
    PILImage st = Some PIL_Image →
    base64.b64decode s = Ok image_bytes →
    Image_open pf image_bytes (desktop st) = (w1, Ok image) →
    locateCenterOnScreen pf image conf w1 = (w2, Ok location) →
    ∃ result : option (gmap string Z),
      (find_image_on_screen pf s conf st).2 = Ok result ∧
      (is_Some result ↔ is_Some location) ∧
      (∀ p, location = Some p →
         ∃ d, result = Some d ∧ d !! "x" = Some (Point_x p) ∧
              d !! "y" = Some (Point_y p) ∧
              dom d = ({[ "x"; "y" ]} : gset string)).
Proof.
  intros s conf st image_bytes image w1 w2 location H Hd Ho Hl.
  rewrite find_image_on_screen_with_Pillow by exact H.
  cbv zeta. rewrite Hd, Ho, Hl. cbn [snd].
  eexists. split; [reflexivity|]. split.
  - rewrite fmap_is_Some. reflexivity.
  - intros p ->. eexists. split; [reflexivity|]. apply point_dict_lookup.
Qed.

(** C7. [take_screenshot] with Pillow: when [pyautogui.screenshot()]
    (called without a region, in the world the call started in) returns a
    picture and saving that picture in PNG format yields bytes, the call
    returns the [Image] made of exactly those bytes and tagged [png].
    Conversely every call that returns normally went that way: its data
    are the PNG bytes of the picture the capture returned.  And when the
    capture raises an exception the call raises the [RuntimeError] of kind
    [CaptureFailed] that carries its message, without trying to encode
    anything. *)
Theorem take_screenshot_returns_png_of_capture :
  ∀ (st : Process),
    (∀ w1 w2 screenshot_pil img_bytes,
       PILImage st = Some PIL_Image →
       screenshot pf (desktop st) = (w1, Ok screenshot_pil) →
       save pf screenshot_pil "PNG" w1 = (w2, Ok img_bytes) →
       take_screenshot pf st =
         ({| PILImage := PILImage st; desktop := w2;
             calls := calls st ++ [pyautogui_screenshot;
                                   Picture_save screenshot_pil "PNG"] |},
          Ok {| Image_data := img_bytes; Image_format := "png" |})) ∧
    (∀ st' im,
       take_screenshot pf st = (st', Ok im) →
       Image_format im = "png" ∧
       ∃ screenshot_pil w1,
         screenshot pf (desktop st) = (w1, Ok screenshot_pil) ∧
         save pf screenshot_pil "PNG" w1 = (desktop st', Ok (Image_data im)) ∧
         calls st' = calls st ++ [pyautogui_screenshot;
                                  Picture_save screenshot_pil "PNG"]) ∧
    (∀ w1 e,
       PILImage st = Some PIL_Image →
       screenshot pf (desktop st) = (w1, Raise e) →
       isinstance e Exception = true →
       let failure :=
         new RuntimeError ("Failed to take screenshot: " +:+ exc_str e) in
       take_screenshot pf st =
         ({| PILImage := PILImage st; desktop := w1;
             calls := calls st ++ [pyautogui_screenshot] |}, Raise failure) ∧
       kind_of failure = Some CaptureFailed).
Proof.
  intros st. split; [|split].
  - intros w1 w2 pic bs Hpil Hcap Hsave.
    rewrite take_screenshot_with_Pillow by exact Hpil.
    cbv zeta. rewrite Hcap, Hsave, <- app_assoc. reflexivity.
  - intros st' im Hrun.
    destruct (PILImage st) as [[]|] eqn:Hpil.
    + rewrite take_screenshot_with_Pillow in Hrun by exact Hpil.
      cbv zeta in Hrun.
      destruct (screenshot pf (desktop st)) as [w1 [pic|e]].
      * destruct (save pf pic "PNG" w1) as [w2 [bs|e]] eqn:Hsave.
        -- injection Hrun as <- <-. split; [reflexivity|].
           exists pic, w1. cbn [desktop calls Image_data].
           rewrite <- app_assoc. done.
        -- destruct (isinstance e Exception); discriminate.
      * destruct (isinstance e Exception); discriminate.
    + rewrite take_screenshot_without_Pillow in Hrun by exact Hpil.
      discriminate.
  - intros w1 e Hpil Hcap Hexc failure.
    rewrite take_screenshot_with_Pillow by exact Hpil.
    cbv zeta. rewrite Hcap, Hexc. split; [reflexivity|].
    apply kind_of_screenshot_failure.
Qed.


(** C4. A [click] call whose [clicks] is zero or negative is rejected by
    the declared bound [ge=1] with pydantic's validation error (an invalid
    argument), and the process is left as it was: neither the context nor
    [pyautogui.click] is called.  With [clicks] at least 1 the check
    passes and the call is the body of [click] on that value. *)
Theorem click_requires_positive_clicks :
  ∀ (x y : Z) (button : option Button.t) (ctx : option Context) (n : Z)
    (st : Process),
    (n ≤ 0 →
       call_tool pf (call_click x y button (Some n) ctx) st =
         (st, Raise (validation_error "clicks" "greater_than_equal")) ∧
       kind_of (validation_error "clicks" "greater_than_equal")
         = Some InvalidArgument) ∧
    (1 ≤ n →
       check_Field Z.leb "clicks" clicks_Field n = Ok n ∧
       call_tool pf (call_click x y button (Some n) ctx) st =
         (click pf x y (default Button.left button) n ctx ;;
          mret ret_None) st).
Proof.
  intros x y button ctx n st. split; intros Hn.
  - split; [|reflexivity].
    cbn [call_tool]. change (default 1 (Some n)) with n.
    unfold mbind at 1, M_bind at 1, eval.
    unfold check_Field. cbn [ge clicks_Field].
    destruct (Z.leb_spec 1 n) as [?|_]; [lia|]. reflexivity.
  - assert (check_Field Z.leb "clicks" clicks_Field n = Ok n) as Hc.
    { unfold check_Field. cbn [ge le clicks_Field].
      destruct (Z.leb_spec 1 n) as [_|?]; [reflexivity|lia]. }
    split; [exact Hc|].
    cbn [call_tool]. change (default 1 (Some n)) with n.
    unfold mbind at 1, M_bind at 1, eval.
    rewrite Hc. reflexivity.
Qed.

Lemma kind_of_press_key_failure rest :
  kind_of (new ValueError ("Failed to press key '" +:+ rest))
  = Some ActionFailed.
Proof.
  unfold kind_of.
  replace (isinstance (new ValueError _) ValueError) with true by reflexivity.
  cbn [exc_str new].
  rewrite (prefix_append "Failed to press key '"). reflexivity.
Qed.

Lemma kind_of_press_hotkey_failure rest :
  kind_of (new ValueError ("Failed to press hotkey combination " +:+ rest))
  = Some ActionFailed.
Proof.
  unfold kind_of.
  replace (isinstance (new ValueError _) ValueError) with true by reflexivity.
  cbn [exc_str new].
  replace (String.prefix "Failed to press key '" _) with false
    by reflexivity.
  rewrite (prefix_append "Failed to press hotkey combination ").
  reflexivity.
Qed.

(** C5 (as the code has it). [press_key] and [press_hotkey] make no check
    of the key names: every call hands the names as given to
    [pyautogui.press] / [pyautogui.hotkey].  When the primitive raises an
    exception that derives from [Exception], the call raises a
    [ValueError] that carries the message of the primitive: a caught
    failure of the platform, of kind [ActionFailed].  An exception that
    does not derive from [Exception] leaves the call as it is.  When the
    primitive returns, the call returns [None]. *)
Theorem key_names_are_checked_by_the_platform_only :
  ∀ (key : string) (keys : list string) (st : Process),
    let press_failure e :=
      new ValueError
        ("Failed to press key '" +:+ key +:+ "': " +:+ exc_str e +:+
         ". Ensure it's a valid key name.") in
    let hotkey_failure e :=
      new ValueError
        ("Failed to press hotkey combination " +:+
         repr_list (repr_str pf) keys +:+ ": " +:+ exc_str e +:+
         ". Ensure all key names are valid.") in
    press_key pf key st =
      ({| PILImage := PILImage st; desktop := (press pf key (desktop st)).1;
          calls := calls st ++ [pyautogui_press key] |},
       match (press pf key (desktop st)).2 with
       | Ok _ => Ok tt
       | Raise e =>
           if isinstance e Exception then Raise (press_failure e) else Raise e
       end) ∧
    press_hotkey pf keys st =
      ({| PILImage := PILImage st;
          desktop := (hotkey pf keys (desktop st)).1;
          calls := calls st ++ [pyautogui_hotkey keys] |},
       match (hotkey pf keys (desktop st)).2 with
       | Ok _ => Ok tt
       | Raise e =>
           if isinstance e Exception then Raise (hotkey_failure e)
           else Raise e
       end) ∧
    (∀ e, kind_of (press_failure e) = Some ActionFailed ∧
          kind_of (hotkey_failure e) = Some ActionFailed).
Proof.
  intros key keys st press_failure hotkey_failure. split; [|split].
  - unfold press_key. rewrite try_invoke_except_Exception.
    destruct (press pf key (desktop st)) as [w' [[]|e]]; reflexivity.
  - unfold press_hotkey. rewrite try_invoke_except_Exception.
    destruct (hotkey pf keys (desktop st)) as [w' [[]|e]]; reflexivity.
  - intros e. split.
    + apply kind_of_press_key_failure.
    + apply kind_of_press_hotkey_failure.
Qed.

End ToolProperties.

(** ** The tools on the small desktop *)

Lemma find_image_on_screen_malformed_base64_witness :
  base64.b64decode "abc" = Raise (new binascii.Error "Incorrect padding") ∧
  find_image_on_screen Demo.platform "abc" float_0_9
    (Demo.process true true true) =
    ({| PILImage := Some PIL_Image; desktop := Demo.desk true true;
        calls := [base64_b64decode "abc"] |},
     Raise base64_Error_missing).
Proof.
  assert (base64.b64decode "abc"
          = Raise (new binascii.Error "Incorrect padding")) as Hd
    by (vm_compute; reflexivity).
  split; [exact Hd|].
  exact (proj1 (find_image_on_screen_malformed_base64 Demo.platform "abc"
                  float_0_9 (Demo.process true true true) _ eq_refl Hd)).
Defined.

Lemma find_image_on_screen_no_match_witness :
  find_image_on_screen Demo.platform "iVBORw==" float_0_9
    (Demo.process true true false) =
    ({| PILImage := Some PIL_Image; desktop := Demo.desk true false;
        calls := [base64_b64decode "iVBORw=="; PILImage_open Demo.icon;
                  pyautogui_locateCenterOnScreen Demo.icon float_0_9] |},
     Ok None) ∧
  find_image_on_screen Demo.raising "iVBORw==" float_0_9
    (Demo.process true true false) =
    ({| PILImage := Some PIL_Image; desktop := Demo.desk true false;
        calls := [base64_b64decode "iVBORw=="; PILImage_open Demo.icon;
                  pyautogui_locateCenterOnScreen Demo.icon float_0_9] |},
     Raise base64_Error_missing).
Proof.
  assert (base64.b64decode "iVBORw==" = Ok Demo.icon) as Hd
    by (vm_compute; reflexivity).
  split.
  - apply (proj1 (find_image_on_screen_no_match Demo.platform "iVBORw=="
                    float_0_9 (Demo.process true true false) Demo.icon
                    Demo.icon (Demo.desk true false) (Demo.desk true false)
                    eq_refl Hd eq_refl)).
    vm_compute. reflexivity.
  - apply (proj2 (find_image_on_screen_no_match Demo.raising "iVBORw=="
                    float_0_9 (Demo.process true true false) Demo.icon
                    Demo.icon (Demo.desk true false) (Demo.desk true false)
                    eq_refl Hd eq_refl)
             (new Demo.ImageNotFoundException "")).
    vm_compute. reflexivity.
Defined.

Lemma find_image_on_screen_returns_reported_center_witness :
  ∃ result : option (gmap string Z),
    (find_image_on_screen Demo.platform "iVBORw==" float_0_9
       (Demo.process true true true)).2 = Ok result ∧
    (is_Some result ↔ is_Some (Some Demo.icon_center)) ∧
    (∀ p, Some Demo.icon_center = Some p →
       ∃ d, result = Some d ∧ d !! "x" = Some (Point_x p) ∧
            d !! "y" = Some (Point_y p) ∧
            dom d = ({[ "x"; "y" ]} : gset string)).
Proof.
  apply (find_image_on_screen_returns_reported_center Demo.platform
           "iVBORw==" float_0_9 (Demo.process true true true) Demo.icon
           Demo.icon (Demo.desk true true) (Demo.desk true true)
           (Some Demo.icon_center));
    vm_compute; reflexivity.
Defined.

Lemma take_screenshot_returns_png_of_capture_witness :
  take_screenshot Demo.platform (Demo.process true true true) =
    ({| PILImage := Some PIL_Image; desktop := Demo.desk true true;
        calls := [pyautogui_screenshot;
                  Picture_save Demo.screen_content "PNG"] |},
     Ok {| Image_data := Demo.screen_content; Image_format := "png" |}) ∧
  take_screenshot Demo.platform (Demo.process true false true) =
    ({| PILImage := Some PIL_Image; desktop := Demo.desk false true;
        calls := [pyautogui_screenshot] |},
     Raise (new RuntimeError
              "Failed to take screenshot: cannot open display")).
Proof.
  split.
  - apply (proj1 (take_screenshot_returns_png_of_capture Demo.platform
                    (Demo.process true true true))
             (Demo.desk true true) (Demo.desk true true)
             Demo.screen_content Demo.screen_content);
      reflexivity.
  - apply (proj2 (proj2 (take_screenshot_returns_png_of_capture Demo.platform
                           (Demo.process true false true)))
             (Demo.desk false true) (new Demo.OSError "cannot open display"));
      vm_compute; reflexivity.
Defined.


Lemma click_requires_positive_clicks_witness :
  call_tool Demo.platform (call_click 3 4 None (Some (-2)) None)
    (Demo.process true true true) =
    (Demo.process true true true,
     Raise (validation_error "clicks" "greater_than_equal")) ∧
  check_Field Z.leb "clicks" clicks_Field 2 = Ok 2.
Proof.
  split.
  - apply (proj1 (click_requires_positive_clicks Demo.platform 3 4 None None
                    (-2) (Demo.process true true true))). lia.
  - apply (proj2 (click_requires_positive_clicks Demo.platform 3 4 None None
                    2 (Demo.process true true true))). lia.
Defined.

Lemma imaging_tools_unavailable_for_the_lifetime_witness :
  (serve Demo.platform
     [call_take_screenshot; call_move_to 1 2;
      call_find_image_on_screen "iVBORw==" None]
     (Demo.process false true true)).2 !! 2%nat
  = Some (Raise Pillow_missing).
Proof.
  apply (proj1 (imaging_tools_unavailable_for_the_lifetime Demo.platform
                  (Demo.desk true true) (Demo.process false true true)
                  [call_take_screenshot; call_move_to 1 2;
                   call_find_image_on_screen "iVBORw==" None] eq_refl)
           2%nat (call_find_image_on_screen "iVBORw==" None));
    reflexivity.
Defined.

Lemma missing_Pillow_is_raised_before_any_work_witness :
  find_image_on_screen Demo.platform "abc" float_0_9
    (Demo.process false true true) =
  (Demo.process false true true, Raise Pillow_missing).
Proof.
  apply (missing_Pillow_is_raised_before_any_work Demo.platform Demo.platform
           "abc" "iVBORw==" float_0_9 float_1_0
           (Demo.process false true true)).
  reflexivity.
Defined.

Lemma input_tools_do_not_depend_on_Pillow_witness :
  (call_tool Demo.platform (call_press_key "enter")
     (Demo.process true true true)).2 =
  (call_tool Demo.platform (call_press_key "enter")
     (Demo.process false true true)).2.
Proof.
  apply (input_tools_do_not_depend_on_Pillow Demo.platform
           (call_press_key "enter") (Some PIL_Image) None
           (Demo.desk true true) []).
  reflexivity.
Defined.

(** On this desktop a name outside [KEYBOARD_KEYS] reaches the platform
    and the call succeeds: no check stands between the caller and
    [pyautogui]. *)
Lemma unrecognized_key_reaches_pyautogui :
  ("notakey" ∉ Demo.KEYBOARD_KEYS) ∧
  press_key Demo.platform "notakey" (Demo.process true true true) =
    ({| PILImage := Some PIL_Image; desktop := Demo.desk true true;
        calls := [pyautogui_press "notakey"] |}, Ok tt) ∧
  press_hotkey Demo.platform ["ctrl"; "notakey"]
    (Demo.process true true true) =
    ({| PILImage := Some PIL_Image;
        desktop := Demo.with_keys (Demo.desk true true) ["ctrl"];
        calls := [pyautogui_hotkey ["ctrl"; "notakey"]] |}, Ok tt).
Proof.
  split; [|split].
  - apply (bool_decide_eq_false_1 ("notakey" ∈ Demo.KEYBOARD_KEYS)).
    vm_compute. reflexivity.
  - vm_compute. reflexivity.
  - vm_compute. reflexivity.
Qed.

(** ** More about the tools *)

Section Logs.
Context {World Picture : Type}.
Variable ok : Event Picture → bool.
Local Abbreviation M := (M World Picture).
Local Abbreviation logs :=
  (logs_only (World:=World) (Picture:=Picture) ok).

Lemma logs_ret {A} (a : A) : logs (mret a : M A).
Proof. intros st. exists []. rewrite app_nil_r. done. Qed.

Lemma logs_raise {A} e : logs (raise e : M A).
Proof. intros st. exists []. rewrite app_nil_r. done. Qed.

Lemma logs_eval {A} (r : Res A) : logs (eval r : M A).
Proof. intros st. exists []. rewrite app_nil_r. done. Qed.

Lemma logs_global : logs (global_PILImage : M _).
Proof. intros st. exists []. rewrite app_nil_r. done. Qed.

Lemma logs_invoke {A} ev (prim : World → World * Res A) :
  ok ev = true → logs (invoke ev prim : M A).
Proof.
  intros Hev st. exists [ev]. unfold invoke.
  destruct (prim (desktop st)). simpl. rewrite Hev. done.
Qed.

Lemma logs_bind {A B} (m : M A) (f : A → M B) :
  logs m → (∀ a, logs (f a)) → logs (m ≫= f).
Proof.
  intros Hm Hf st. destruct (Hm st) as (evs1 & E1 & F1).
  unfold mbind, M_bind.
  destruct (m st) as [st' [a|e]]; simpl in *; [|by exists evs1].
  destruct (Hf a st') as (evs2 & E2 & F2).
  exists (evs1 ++ evs2). rewrite E2, E1, app_assoc, forallb_app, F1, F2. done.
Qed.

Lemma logs_handle {A} e (clauses : list (ExceptClause A)) :
  Forall (fun c => ∀ e, logs (clause_body c e)) clauses →
  logs (handle e clauses).
Proof.
  induction 1 as [|c rest Hc _ IH]; simpl; [apply logs_raise|].
  destruct (clause_expr c ≫= exception_matches e) as [[]|e'];
    [apply Hc | exact IH | apply logs_raise].
Qed.

Lemma logs_try_except {A} (body : M A) clauses :
  logs body →
  Forall (fun c => ∀ e, logs (clause_body c e)) clauses →
  logs (try_except body clauses).
Proof.
  intros Hb Hc st. destruct (Hb st) as (evs1 & E1 & F1).
  unfold try_except.
  destruct (body st) as [st' [a|e]]; simpl in *; [by exists evs1|].
  destruct (logs_handle e clauses Hc st') as (evs2 & E2 & F2).
  exists (evs1 ++ evs2). rewrite E2, E1, app_assoc, forallb_app, F1, F2. done.
Qed.

End Logs.

Ltac logs :=
  repeat first
    [ progress intros
    | apply logs_bind | apply logs_try_except
    | apply Forall_cons_2 | apply Forall_nil_2
    | progress (unfold except; cbn [clause_body])
    | match goal with
      | |- logs_only _ (match ?x with _ => _ end) => destruct x
      end
    | apply logs_ret | apply logs_raise | apply logs_eval
    | apply logs_global
    | apply logs_invoke; reflexivity ].

Section MoreProperties.
Context {World Picture : Type}.
Variable pf : Platform World Picture.
Local Abbreviation Process := (Process World Picture).

(** X12. The tools marked read-only call none of the pointer and keyboard
    primitives: whatever they append to the log is a decode, an open, a
    search, a capture, an encode or a size query. *)
Theorem read_only_tools_never_drive_input :
  ∀ (c : ToolCall) (st : Process),
    is_read_only_tool c = true →
    ∃ evs, calls (call_tool pf c st).1 = calls st ++ evs ∧
           forallb (fun ev => negb (is_input_action ev)) evs = true.
Proof.
  intros c st Hc. revert st.
  change (logs_only (fun ev => negb (is_input_action ev)) (call_tool pf c)).
  destruct c; try discriminate;
    unfold call_tool, find_image_on_screen, take_screenshot, get_screen_size;
    logs.
Qed.

Lemma other_tools_log_no_imaging (c : ToolCall) :
  is_imaging_tool c = false →
  logs_only (fun ev => negb (is_imaging_event ev)) (call_tool pf c).
Proof.
  intros Hc. destruct c; try discriminate;
    unfold call_tool, move_to, click, type_text, press_key, press_hotkey,
      get_screen_size; logs.
Qed.

Lemma call_tool_without_Pillow_logs_no_imaging (c : ToolCall) (st : Process) :
  PILImage st = None →
  ∃ evs, calls (call_tool pf c st).1 = calls st ++ evs ∧
         forallb (fun ev => negb (is_imaging_event ev)) evs = true.
Proof.
  intros H. destruct (is_imaging_tool c) eqn:Hc.
  - exists []. rewrite app_nil_r. split; [|reflexivity].
    destruct c; try discriminate; cbn [call_tool].
    + unfold mbind at 1, M_bind at 1, eval.
      destruct (check_Field _ _ _ _) as [conf|e]; [|reflexivity].
      unfold mbind, M_bind.
      rewrite find_image_on_screen_without_Pillow by exact H. reflexivity.
    + unfold mbind, M_bind.
      rewrite take_screenshot_without_Pillow by exact H. reflexivity.
  - apply other_tools_log_no_imaging, Hc.
Qed.

(** X13. Without Pillow, nothing of the imaging work is ever attempted: after
    any sequence of calls the log holds no decode, open, search, capture
    or encode. *)
Theorem no_imaging_work_without_Pillow :
  ∀ (w : World) (st0 : Process) (cs : list ToolCall),
    startup false true w = Some st0 →
    forallb (fun ev => negb (is_imaging_event ev))
      (calls (serve pf cs st0).1) = true.
Proof.
  intros w st0 cs Hstart. injection Hstart as <-.
  cut (∀ st : Process, PILImage st = None →
         ∃ evs, calls (serve pf cs st).1 = calls st ++ evs ∧
                forallb (fun ev => negb (is_imaging_event ev)) evs = true).
  { intros Hcut.
    match goal with
    | |- forallb _ (calls (serve pf cs ?st).1) = true =>
        destruct (Hcut st eq_refl) as (evs & E & F)
    end.
    rewrite E. exact F. }
  induction cs as [|c cs IH]; intros st H.
  - exists []. rewrite app_nil_r. done.
  - simpl.
    destruct (call_tool_without_Pillow_logs_no_imaging c st H)
      as (evs1 & E1 & F1).
    pose proof (call_tool_keeps_PILImage pf c st) as Hk.
    destruct (call_tool pf c st) as [st1 r]; simpl in *.
    destruct (IH st1) as (evs2 & E2 & F2); [congruence|].
    destruct (serve pf cs st1) as [st2 rs]; simpl in *.
    exists (evs1 ++ evs2). rewrite E2, E1, app_assoc, forallb_app, F1, F2.
    done.
Qed.

(** *** The pointer and keyboard tools *)

(** X1. [move_to] calls [pyautogui.moveTo] once, with the coordinates as
    given, whatever happens next.  It returns [None] when the primitive
    returns; an exception of the primitive that derives from [Exception]
    is replaced by a [RuntimeError] whose message names the coordinates
    and ends with the original message; any other exception (a
    [KeyboardInterrupt], say) passes through as it is. *)
Theorem move_to_outcomes :
  ∀ (x y : Z) (st : Process),
    calls (move_to pf x y st).1 = calls st ++ [pyautogui_moveTo x y] ∧
    desktop (move_to pf x y st).1 = (moveTo pf x y (desktop st)).1 ∧
    (∀ w1, moveTo pf x y (desktop st) = (w1, Ok tt) →
           (move_to pf x y st).2 = Ok tt) ∧
    (∀ w1 e, moveTo pf x y (desktop st) = (w1, Raise e) →
             isinstance e Exception = true →
             (move_to pf x y st).2 =
               Raise (new RuntimeError
                        ("Failed to move mouse to (" +:+ pretty x +:+ ", "
                         +:+ pretty y +:+ "): " +:+ exc_str e))) ∧
    (∀ w1 e, moveTo pf x y (desktop st) = (w1, Raise e) →
             isinstance e Exception = false →
             (move_to pf x y st).2 = Raise e).
Proof.
  intros x y st. unfold move_to. rewrite try_invoke_except_Exception.
  cbn [fst snd calls desktop]. repeat split.
  - intros w1 H. rewrite H. reflexivity.
  - intros w1 e H He. rewrite H. cbn [snd]. rewrite He. reflexivity.
  - intros w1 e H He. rewrite H. cbn [snd]. rewrite He. reflexivity.
Qed.

(** X4. [type_text] calls [pyautogui.typewrite] once with the text and the
    interval as given; an [Exception] of the primitive becomes
    [RuntimeError("Failed to type text: ...")], any other exception passes
    through. *)
Theorem type_text_outcomes :
  ∀ (text : string) (interval : float) (st : Process),
    calls (type_text pf text interval st).1 =
      calls st ++ [pyautogui_typewrite text interval] ∧
    (∀ w1, typewrite pf text interval (desktop st) = (w1, Ok tt) →
           type_text pf text interval st =
             ({| PILImage := PILImage st; desktop := w1;
                 calls := calls st ++ [pyautogui_typewrite text interval] |},
              Ok tt)) ∧
    (∀ w1 e, typewrite pf text interval (desktop st) = (w1, Raise e) →
             isinstance e Exception = true →
             (type_text pf text interval st).2 =
               Raise (new RuntimeError
                        ("Failed to type text: " +:+ exc_str e))) ∧
    (∀ w1 e, typewrite pf text interval (desktop st) = (w1, Raise e) →
             isinstance e Exception = false →
             (type_text pf text interval st).2 = Raise e).
Proof.
  intros text interval st. unfold type_text.
  rewrite try_invoke_except_Exception.
  cbn [fst snd calls desktop]. repeat split.
  - intros w1 H. rewrite H. reflexivity.
  - intros w1 e H He. rewrite H. cbn [snd]. rewrite He. reflexivity.
  - intros w1 e H He. rewrite H. cbn [snd]. rewrite He. reflexivity.
Qed.

(** The message [click] sends to the context. *)
Lemma click_run (x y : Z) (button : Button.t) (clicks : Z)
    (ctx : option Context) (st : Process) :
  click pf x y button clicks ctx st =
    let message :=
      "Clicking at (" +:+ pretty x +:+ ", " +:+ pretty y +:+ ") with " +:+
      Button.str button +:+ " button, " +:+ pretty clicks +:+ " times." in
    let body :=
      try_except
        (invoke (pyautogui_click x y button clicks)
           (click_ pf x y button clicks))
        [ except Exception (fun e =>
            raise (new RuntimeError
                     ("Failed to click at (" +:+ pretty x +:+ ", " +:+
                      pretty y +:+ ") with " +:+ Button.str button +:+
                      " button, " +:+ pretty clicks +:+ " times: " +:+
                      exc_str e))) ] in
    match ctx with
    | None => body st
    | Some c =>
        match info pf c message (desktop st) with
        | (w1, Ok _) =>
            body {| PILImage := PILImage st; desktop := w1;
                    calls := calls st ++ [ctx_info message] |}
        | (w1, Raise e) =>
            ({| PILImage := PILImage st; desktop := w1;
                calls := calls st ++ [ctx_info message] |}, Raise e)
        end
    end.
Proof.
  unfold click. destruct ctx as [c|]; cbv zeta.
  - unfold mbind at 1, M_bind at 1, invoke at 1.
    destruct (info pf c _ (desktop st)) as [w1 [[]|e]]; reflexivity.
  - reflexivity.
Qed.

(** X3. The call to the context is not inside the [try] of [click]: when a
    context is given and [ctx.info] raises, that exception leaves [click]
    as it is, whatever its class, and [pyautogui.click] is not called. *)
Theorem click_context_failure_skips_the_click :
  ∀ (x y : Z) (button : Button.t) (clicks : Z) (c : Context)
    (st : Process) (w1 : World) (e : PyExc),
    let message :=
      "Clicking at (" +:+ pretty x +:+ ", " +:+ pretty y +:+ ") with " +:+
      Button.str button +:+ " button, " +:+ pretty clicks +:+ " times." in
    info pf c message (desktop st) = (w1, Raise e) →
    click pf x y button clicks (Some c) st =
      ({| PILImage := PILImage st; desktop := w1;
          calls := calls st ++ [ctx_info message] |}, Raise e).
Proof.
  intros x y button clicks c st w1 e message H.
  rewrite click_run. cbv zeta. fold message. rewrite H. reflexivity.
Qed.

(** X2. With a context, [click] first reports what it is about to do and
    then clicks, in the world the report left; without one it only
    clicks.  The click is one call of [pyautogui.click] with position,
    button and count as given.  With or without a context, the call
    returns [None] when the click returns, an [Exception] the click
    raises becomes a [RuntimeError] that names position, button and
    count, and any other exception passes through. *)
Theorem click_outcomes :
  ∀ (x y : Z) (button : Button.t) (clicks : Z) (st : Process),
    let message :=
      "Clicking at (" +:+ pretty x +:+ ", " +:+ pretty y +:+ ") with " +:+
      Button.str button +:+ " button, " +:+ pretty clicks +:+ " times." in
    let failure e :=
      new RuntimeError
        ("Failed to click at (" +:+ pretty x +:+ ", " +:+ pretty y +:+
         ") with " +:+ Button.str button +:+ " button, " +:+
         pretty clicks +:+ " times: " +:+ exc_str e) in
    let outcome (r : Res unit) : Res unit :=
      match r with
      | Ok _ => Ok tt
      | Raise e => if isinstance e Exception then Raise (failure e)
                   else Raise e
      end in
    (∀ w2 r,
       click_ pf x y button clicks (desktop st) = (w2, r) →
       click pf x y button clicks None st =
         ({| PILImage := PILImage st; desktop := w2;
             calls := calls st ++ [pyautogui_click x y button clicks] |},
          outcome r)) ∧
    (∀ c w1 w2 r,
       info pf c message (desktop st) = (w1, Ok tt) →
       click_ pf x y button clicks w1 = (w2, r) →
       click pf x y button clicks (Some c) st =
         ({| PILImage := PILImage st; desktop := w2;
             calls := calls st ++ [ctx_info message;
                                   pyautogui_click x y button clicks] |},
          outcome r)).
Proof.
  intros x y button clicks st message failure outcome. split.
  - intros w2 r Hc. rewrite click_run. cbv zeta.
    rewrite try_invoke_except_Exception. rewrite Hc.
    destruct r as [[]|e]; reflexivity.
  - intros c w1 w2 r Hi Hc. rewrite click_run. cbv zeta. fold message.
    rewrite Hi. rewrite try_invoke_except_Exception.
    cbn [desktop calls PILImage]. rewrite Hc, <- app_assoc.
    destruct r as [[]|e]; reflexivity.
Qed.

(** *** The imaging tools *)

(** With Pillow, the only exception [find_image_on_screen] can end with
    is the one of the failed lookup. *)
Lemma find_image_on_screen_with_Pillow_raises (s : string) (conf : float)
    (st st' : Process) (e : PyExc) :
  PILImage st = Some PIL_Image →
  find_image_on_screen pf s conf st = (st', Raise e) →
  e = base64_Error_missing.
Proof.
  intros Hpil Hrun.
  rewrite find_image_on_screen_with_Pillow in Hrun by exact Hpil.
  cbv zeta in Hrun.
  destruct (base64.b64decode s) as [bs|e0]; [|congruence].
  destruct (Image_open pf bs (desktop st)) as [w1 [img|e1]]; [|congruence].
  destruct (locateCenterOnScreen pf img conf w1) as [w2 [loc|e2]];
    congruence.
Qed.

(** With Pillow, [take_screenshot] does not end with the error of the
    missing dependency: an [Exception] is wrapped, and anything else is
    not a [RuntimeError]. *)
Lemma take_screenshot_with_Pillow_not_missing (st : Process) :
  PILImage st = Some PIL_Image →
  (take_screenshot pf st).2 ≠ Raise Pillow_missing.
Proof.
  intros Hpil Hrun.
  rewrite take_screenshot_with_Pillow in Hrun by exact Hpil.
  cbv zeta in Hrun.
  assert (∀ e, (if isinstance e Exception
                then Raise (new RuntimeError
                              ("Failed to take screenshot: " +:+ exc_str e))
                else Raise e) ≠ (Raise Pillow_missing : Res Image)) as Hw.
  { intros e. destruct (isinstance e Exception) eqn:He.
    - discriminate.
    - intros [= ->]. discriminate. }
  destruct (screenshot pf (desktop st)) as [w1 [pic|e]].
  - destruct (save pf pic "PNG" w1) as [w2 [bs|e]];
      [discriminate | exact (Hw e Hrun)].
  - exact (Hw e Hrun).
Qed.

(** X7. Only two exceptions ever leave [find_image_on_screen]: the
    [RuntimeError] of the missing Pillow, and the [AttributeError] of the
    lookup of [base64.Error].  The [ValueError] and the [RuntimeError]
    that its two [except] clauses would raise are never raised, whatever
    the argument and whatever Pillow and [pyautogui] do, even when they
    raise a [KeyboardInterrupt]. *)
Theorem find_image_on_screen_raises_only :
  ∀ (s : string) (conf : float) (st st' : Process) (e : PyExc),
    find_image_on_screen pf s conf st = (st', Raise e) →
    (e = Pillow_missing ∧ PILImage st = None ∧ st' = st) ∨
    (e = base64_Error_missing ∧ PILImage st = Some PIL_Image).
Proof.
  intros s conf st st' e Hrun.
  destruct (PILImage st) as [[]|] eqn:Hpil.
  - right. split; [|reflexivity].
    exact (find_image_on_screen_with_Pillow_raises s conf st st' e Hpil Hrun).
  - left. rewrite find_image_on_screen_without_Pillow in Hrun by exact Hpil.
    injection Hrun as <- <-. done.
Qed.

(** X8. When the argument decodes but Pillow cannot open the bytes, the
    screen is not searched: the log gains the decode and the open and
    nothing else, and the call ends with the [AttributeError]. *)
Theorem find_image_on_screen_unopenable_image :
  ∀ (s : string) (conf : float) (st : Process) (image_bytes : bytes)
    (w1 : World) (e : PyExc),
    PILImage st = Some PIL_Image →
    base64.b64decode s = Ok image_bytes →
    Image_open pf image_bytes (desktop st) = (w1, Raise e) →
    find_image_on_screen pf s conf st =
      ({| PILImage := PILImage st; desktop := w1;
          calls := calls st ++ [base64_b64decode s;
                                PILImage_open image_bytes] |},
       Raise base64_Error_missing).
Proof.
  intros s conf st image_bytes w1 e H Hd Ho.
  rewrite find_image_on_screen_with_Pillow by exact H.
  cbv zeta. rewrite Hd, Ho, <- app_assoc. reflexivity.
Qed.

(** Characters without a value are skipped by the decoding loop. *)
Lemma a2b_base64_loop_skips (s : string) (pads : Z) :
  forallb outside_base64 (String.list_ascii_of_string s) = true →
  binascii.a2b_base64_loop s 0 0 pads [] = Ok [].
Proof.
  induction s as [|c s IH]; intros H; [reflexivity|].
  cbn [String.list_ascii_of_string forallb] in H.
  apply andb_true_iff in H as [Hc Hs].
  cbn [binascii.a2b_base64_loop].
  replace (2 <=? 0) with false by reflexivity.
  unfold outside_base64 in Hc.
  destruct (binascii.table_a2b_base64 c); [discriminate|].
  destruct (bool_decide (c = binascii.BASE64_PAD)); apply IH, Hs.
Qed.

(** X9. The decoder runs without [validate=True]: a string made only of
    ASCII characters that have no value in the base64 alphabet is not
    rejected; it decodes to the empty [bytes], and that is what Pillow is
    asked to open. *)
Theorem find_image_on_screen_skips_foreign_characters :
  ∀ (s : string) (conf : float) (st : Process),
    PILImage st = Some PIL_Image →
    forallb (fun c => outside_base64 c && (Ascii.N_of_ascii c <? 128)%N)
      (String.list_ascii_of_string s) = true →
    base64.b64decode s = Ok [] ∧
    ∃ evs, calls (find_image_on_screen pf s conf st).1 =
             calls st ++ [base64_b64decode s; PILImage_open []] ++ evs.
Proof.
  intros s conf st H Hs.
  assert (base64.b64decode s = Ok []) as Hd.
  { unfold base64.b64decode, base64._bytes_from_decode_data.
    replace (forallb (fun c => (Ascii.N_of_ascii c <? 128)%N)
               (String.list_ascii_of_string s)) with true.
    - unfold mbind, Res_bind. apply a2b_base64_loop_skips.
      rewrite forallb_forall in Hs |- *. intros c Hc.
      specialize (Hs c Hc). apply andb_true_iff in Hs as [? _]. done.
    - symmetry. rewrite forallb_forall in Hs |- *. intros c Hc.
      specialize (Hs c Hc). apply andb_true_iff in Hs as [_ ?]. done. }
  split; [exact Hd|].
  rewrite find_image_on_screen_with_Pillow by exact H.
  cbv zeta. rewrite Hd.
  destruct (Image_open pf [] (desktop st)) as [w1 [img|e1]].
  - destruct (locateCenterOnScreen pf img conf w1) as [w2 [loc|e2]];
      cbn [fst calls]; eexists; rewrite <- !app_assoc; reflexivity.
  - exists []. cbn [fst calls]. rewrite <- !app_assoc. reflexivity.
Qed.

(** X10. The error of the missing dependency is raised if and only if Pillow
    is missing: with Pillow, no failure of a collaborator makes either
    imaging tool raise it. *)
Theorem Pillow_missing_iff_not_imported :
  ∀ (s : string) (conf : float) (st : Process),
    ((find_image_on_screen pf s conf st).2 = Raise Pillow_missing
     ↔ PILImage st = None) ∧
    ((take_screenshot pf st).2 = Raise Pillow_missing
     ↔ PILImage st = None).
Proof.
  intros s conf st. split; split.
  - intros Hrun. destruct (PILImage st) as [[]|] eqn:Hpil; [|reflexivity].
    exfalso.
    destruct (find_image_on_screen pf s conf st) as [st' r] eqn:E.
    cbn [snd] in Hrun. subst r.
    apply find_image_on_screen_with_Pillow_raises in E; [|exact Hpil].
    discriminate.
  - intros H. rewrite find_image_on_screen_without_Pillow by exact H.
    reflexivity.
  - intros Hrun. destruct (PILImage st) as [[]|] eqn:Hpil; [|reflexivity].
    exfalso. exact (take_screenshot_with_Pillow_not_missing st Hpil Hrun).
  - intros H. rewrite take_screenshot_without_Pillow by exact H.
    reflexivity.
Qed.

(** X11. When the capture succeeds and the PNG encoding raises, the failure is
    reported like a failed capture, after both collaborators were
    called. *)
Theorem take_screenshot_encoding_failure :
  ∀ (st : Process) (w1 w2 : World) (screenshot_pil : Picture) (e : PyExc),
    PILImage st = Some PIL_Image →
    screenshot pf (desktop st) = (w1, Ok screenshot_pil) →
    save pf screenshot_pil "PNG" w1 = (w2, Raise e) →
    isinstance e Exception = true →
    take_screenshot pf st =
      ({| PILImage := PILImage st; desktop := w2;
          calls := calls st ++ [pyautogui_screenshot;
                                Picture_save screenshot_pil "PNG"] |},
       Raise (new RuntimeError
                ("Failed to take screenshot: " +:+ exc_str e))).
Proof.
  intros st w1 w2 pic e H Hc Hs He.
  rewrite take_screenshot_with_Pillow by exact H.
  cbv zeta. rewrite Hc, Hs, He, <- app_assoc. reflexivity.
Qed.

Lemma get_screen_size_run (st : Process) :
  get_screen_size pf st =
    ({| PILImage := PILImage st; desktop := (size pf (desktop st)).1;
        calls := calls st ++ [pyautogui_size] |},
     match (size pf (desktop st)).2 with
     | Ok (width, height) => Ok {[ "width" := width; "height" := height ]}
     | Raise e =>
         if isinstance e Exception
         then Raise (new RuntimeError
                       ("Failed to get screen size: " +:+ exc_str e))
         else Raise e
     end).
Proof.
  unfold get_screen_size. run.
  destruct (size pf (desktop st)) as [w1 [[width height]|e]]; run;
    [reflexivity|].
  destruct (isinstance e Exception); reflexivity.
Qed.

(** X6. [get_screen_size] asks [pyautogui.size()] once and returns a
    dictionary with exactly the keys [width] and [height] holding the two
    numbers it got; an [Exception] of the primitive becomes
    [RuntimeError("Failed to get screen size: ...")]. *)
Theorem get_screen_size_outcomes :
  ∀ (st : Process),
    calls (get_screen_size pf st).1 = calls st ++ [pyautogui_size] ∧
    (∀ w1 width height,
       size pf (desktop st) = (w1, Ok (width, height)) →
       ∃ d : gmap string Z,
         (get_screen_size pf st).2 = Ok d ∧
         d !! "width" = Some width ∧ d !! "height" = Some height ∧
         dom d = ({[ "width"; "height" ]} : gset string)) ∧
    (∀ w1 e,
       size pf (desktop st) = (w1, Raise e) →
       isinstance e Exception = true →
       (get_screen_size pf st).2 =
         Raise (new RuntimeError
                  ("Failed to get screen size: " +:+ exc_str e))).
Proof.
  intros st. rewrite get_screen_size_run. cbn [fst snd calls].
  split; [reflexivity|]. split.
  - intros w1 width height H. rewrite H. cbn [snd].
    eexists. split; [reflexivity|]. split; [|split].
    + rewrite lookup_insert_eq. reflexivity.
    + rewrite lookup_insert_ne by discriminate.
      rewrite lookup_singleton_eq. reflexivity.
    + rewrite dom_insert_L, dom_singleton_L. reflexivity.
  - intros w1 e H He. rewrite H. cbn [snd]. rewrite He. reflexivity.
Qed.

(** *** Validation *)

Lemma SFleb_zero (v : float) : SFleb float_0_0 v = float_nonnegative v.
Proof. destruct v as [| [] | | [] m e]; reflexivity. Qed.

(** X5. The bound [ge=0.0] of [interval]: a negative interval (finite or
    infinite) and NaN are rejected before anything is typed and the
    process is left as it was; zero of either sign, a positive number and
    plus infinity pass, and [type_text] runs on the value as given. *)
Theorem type_text_interval_bound :
  ∀ (text : string) (interval : float) (st : Process),
    call_tool pf (call_type_text text (Some interval)) st =
      if float_nonnegative interval
      then (type_text pf text interval ;; mret ret_None) st
      else (st, Raise (validation_error "interval" "greater_than_equal")).
Proof.
  intros text interval st. cbn [call_tool].
  change (default float_0_0 (Some interval)) with interval.
  unfold mbind at 1, M_bind at 1, eval, check_Field.
  cbn [ge le interval_Field]. rewrite SFleb_zero.
  destruct (float_nonnegative interval); reflexivity.
Qed.

(** X15. A call whose arguments break a declared bound never reaches its
    function: it ends with pydantic's validation error and the process is
    exactly as before (no collaborator is called, with or without
    Pillow). *)
Theorem invalid_arguments_leave_the_process_unchanged :
  ∀ (c : ToolCall) (st : Process),
    arguments_valid c = false →
    ∃ e, call_tool pf c st = (st, Raise e) ∧ exc_class e = ValidationError.
Proof.
  intros c st Hv.
  destruct c; try discriminate; cbn [call_tool arguments_valid] in *;
    unfold mbind at 1, M_bind at 1, eval;
    match goal with
    | H : is_Ok ?r = false |- _ =>
        unfold check_Field in *;
        cbn [ge le clicks_Field interval_Field confidence_Field] in *;
        repeat match goal with
               | H : is_Ok (if ?b then _ else _) = false |- _ =>
                   destruct b; cbn [is_Ok] in H; try discriminate
               end
    end; eexists; split; reflexivity.
Qed.

(** X16. The bounds of [confidence] are checked before the function looks for
    Pillow: a confidence below 0, above 1 or NaN is a validation error
    even in a process without Pillow, and nothing is decoded or
    searched. *)
Theorem confidence_is_checked_before_Pillow :
  ∀ (s : string) (conf : float) (st : Process),
    SFleb float_0_0 conf && SFleb conf float_1_0 = false →
    ∃ e, call_tool pf (call_find_image_on_screen s (Some conf)) st
         = (st, Raise e) ∧
         exc_class e = ValidationError ∧ e ≠ Pillow_missing.
Proof.
  intros s conf st Hb. cbn [call_tool].
  change (default float_0_9 (Some conf)) with conf.
  unfold mbind at 1, M_bind at 1, eval, check_Field.
  cbn [ge le confidence_Field].
  destruct (SFleb float_0_0 conf), (SFleb conf float_1_0);
    try discriminate; eexists; (split; [reflexivity|]);
    (split; [reflexivity|discriminate]).
Qed.

(** X17. The declared defaults satisfy the declared bounds: a call that leaves
    out its optional parameters is never rejected, and runs the function
    with button [left], one click, interval 0.0 and confidence 0.9. *)
Theorem defaults_pass_validation :
  ∀ (x y : Z) (ctx : option Context) (text s : string) (st : Process),
    (∀ c, omits_optionals c = true → arguments_valid c = true) ∧
    call_tool pf (call_click x y None None ctx) st =
      (click pf x y Button.left 1 ctx ;; mret ret_None) st ∧
    call_tool pf (call_type_text text None) st =
      (type_text pf text float_0_0 ;; mret ret_None) st ∧
    call_tool pf (call_find_image_on_screen s None) st =
      (r ← find_image_on_screen pf s float_0_9;
       mret (match r with Some d => ret_dict d | None => ret_None end)) st.
Proof.
  intros x y ctx text s st. split; [|split; [|split]]; try reflexivity.
  intros c Hc.
  destruct c as [| ? ? [b|] [n|] ? | ? [i|] | | | ? [cf|] | |];
    try discriminate; reflexivity.
Qed.

(** *** With Pillow, for the life of the process *)

Lemma serve_lookup (cs : list ToolCall) (st : Process) (i : nat)
    (c : ToolCall) :
  cs !! i = Some c →
  ∃ sti : Process,
    PILImage sti = PILImage st ∧
    (serve pf cs st).2 !! i = Some (call_tool pf c sti).2.
Proof.
  revert st i. induction cs as [|c0 cs IH]; intros st i Hi; [discriminate|].
  simpl. pose proof (call_tool_keeps_PILImage pf c0 st) as Hk.
  destruct i as [|i]; simpl in Hi.
  - injection Hi as ->. exists st. split; [reflexivity|].
    destruct (call_tool pf c st) as [st1 r].
    destruct (serve pf cs st1) as [st2 rs]. reflexivity.
  - destruct (call_tool pf c0 st) as [st1 r]; simpl in Hk.
    destruct (IH st1 i Hi) as (sti & Hp & Hr).
    exists sti. split; [congruence|].
    destruct (serve pf cs st1) as [st2 rs]. exact Hr.
Qed.

(** X14. In a process that started with Pillow, no call of an imaging tool
    ever reports the missing dependency, whatever was served before
    it. *)
Theorem imaging_tools_available_for_the_lifetime :
  ∀ (w : World) (st0 : Process) (cs : list ToolCall) (i : nat)
    (c : ToolCall),
    startup true true w = Some st0 →
    cs !! i = Some c → is_imaging_tool c = true →
    ∃ r, (serve pf cs st0).2 !! i = Some r ∧ r ≠ Raise Pillow_missing.
Proof.
  intros w st0 cs i c Hstart Hi Hc. injection Hstart as <-.
  match goal with
  | |- ∃ r, (serve pf cs ?st).2 !! i = Some r ∧ _ =>
      destruct (serve_lookup cs st i c Hi) as (sti & Hp & Hr)
  end.
  cbn [PILImage import_PIL] in Hp.
  eexists. split; [exact Hr|].
  destruct c; try discriminate; cbn [call_tool].
  - unfold mbind at 1, M_bind at 1, eval.
    destruct (check_Field _ _ _ _) as [conf|e] eqn:Hchk.
    + unfold mbind, M_bind.
      destruct (find_image_on_screen pf image_data_base64 conf sti)
        as [st' [r|e]] eqn:E; [discriminate|].
      apply find_image_on_screen_with_Pillow_raises in E as ->;
        [discriminate|exact Hp].
    + cbn [snd]. intros [= ->].
      unfold check_Field in Hchk.
      cbn [ge le confidence_Field] in Hchk.
      repeat match type of Hchk with
             | (if ?b then _ else _) = _ => destruct b
             end; discriminate.
  - unfold mbind, M_bind.
    pose proof (take_screenshot_with_Pillow_not_missing sti Hp) as Hne.
    destruct (take_screenshot pf sti) as [st' [im|e]]; [discriminate|].
    cbn [snd] in *. intros [= ->]. by apply Hne.
Qed.

End MoreProperties.

(** ** More runs on the small desktop *)

Lemma read_only_tools_never_drive_input_witness :
  ∃ evs,
    calls (call_tool Demo.platform call_get_screen_size
             (Demo.process true true true)).1 = [] ++ evs ∧
    forallb (fun ev => negb (is_input_action ev)) evs = true.
Proof.
  apply (read_only_tools_never_drive_input Demo.platform call_get_screen_size
           (Demo.process true true true)).
  reflexivity.
Defined.

Lemma no_imaging_work_without_Pillow_witness :
  forallb (fun ev => negb (is_imaging_event ev))
    (calls (serve Demo.platform
              [call_take_screenshot; call_press_key "enter";
               call_find_image_on_screen "iVBORw==" None]
              (Demo.process false true true)).1) = true.
Proof.
  apply (no_imaging_work_without_Pillow Demo.platform (Demo.desk true true)
           (Demo.process false true true)).
  reflexivity.
Defined.

Lemma move_to_outcomes_witness :
  (move_to Demo.platform 10 20 (Demo.process true true true)).2 = Ok tt ∧
  (move_to (Demo.faulty (new Demo.FailSafeException "fail-safe triggered"))
     10 20 (Demo.process true true true)).2 =
    Raise (new RuntimeError
             "Failed to move mouse to (10, 20): fail-safe triggered") ∧
  (move_to (Demo.faulty (new KeyboardInterrupt "")) 10 20
     (Demo.process true true true)).2 = Raise (new KeyboardInterrupt "").
Proof.
  split; [|split].
  - apply (proj1 (proj2 (proj2 (move_to_outcomes Demo.platform 10 20
                                  (Demo.process true true true))))
             (Demo.with_pointer (Demo.desk true true) (10, 20))).
    reflexivity.
  - apply (proj1 (proj2 (proj2 (proj2
             (move_to_outcomes
                (Demo.faulty (new Demo.FailSafeException "fail-safe triggered"))
                10 20 (Demo.process true true true)))))
             (Demo.desk true true)
             (new Demo.FailSafeException "fail-safe triggered"));
      reflexivity.
  - apply (proj2 (proj2 (proj2 (proj2
             (move_to_outcomes (Demo.faulty (new KeyboardInterrupt ""))
                10 20 (Demo.process true true true)))))
             (Demo.desk true true) (new KeyboardInterrupt ""));
      reflexivity.
Defined.

Lemma type_text_outcomes_witness :
  type_text Demo.platform "hello" float_0_0 (Demo.process true true true) =
    ({| PILImage := Some PIL_Image;
        desktop := Demo.with_keys (Demo.desk true true) ["hello"];
        calls := [pyautogui_typewrite "hello" float_0_0] |}, Ok tt) ∧
  (type_text (Demo.faulty (new Demo.OSError "no display")) "hello" float_0_0
     (Demo.process true true true)).2 =
    Raise (new RuntimeError "Failed to type text: no display") ∧
  (type_text (Demo.faulty (new KeyboardInterrupt "")) "hello" float_0_0
     (Demo.process true true true)).2 = Raise (new KeyboardInterrupt "").
Proof.
  split; [|split].
  - apply (proj1 (proj2 (type_text_outcomes Demo.platform "hello" float_0_0
                           (Demo.process true true true)))
             (Demo.with_keys (Demo.desk true true) ["hello"])).
    reflexivity.
  - apply (proj1 (proj2 (proj2
             (type_text_outcomes (Demo.faulty (new Demo.OSError "no display"))
                "hello" float_0_0 (Demo.process true true true))))
             (Demo.desk true true) (new Demo.OSError "no display"));
      reflexivity.
  - apply (proj2 (proj2 (proj2
             (type_text_outcomes (Demo.faulty (new KeyboardInterrupt ""))
                "hello" float_0_0 (Demo.process true true true))))
             (Demo.desk true true) (new KeyboardInterrupt ""));
      reflexivity.
Defined.

Lemma click_context_failure_skips_the_click_witness :
  click (Demo.faulty (new Demo.OSError "session closed")) 3 4 Button.left 2
    (Some FastMCP_Context) (Demo.process true true true) =
    ({| PILImage := Some PIL_Image; desktop := Demo.desk true true;
        calls := [ctx_info "Clicking at (3, 4) with left button, 2 times."] |},
     Raise (new Demo.OSError "session closed")).
Proof.
  apply (click_context_failure_skips_the_click
           (Demo.faulty (new Demo.OSError "session closed")) 3 4 Button.left 2
           FastMCP_Context (Demo.process true true true)
           (Demo.desk true true) (new Demo.OSError "session closed")).
  reflexivity.
Defined.

Lemma click_outcomes_witness :
  click Demo.platform 3 4 Button.right 2 None (Demo.process true true true) =
    ({| PILImage := Some PIL_Image;
        desktop := Demo.with_pointer (Demo.desk true true) (3, 4);
        calls := [pyautogui_click 3 4 Button.right 2] |}, Ok tt) ∧
  click (Demo.stuck_button (new Demo.OSError "no display")) 3 4 Button.right 2
    (Some FastMCP_Context) (Demo.process true true true) =
    ({| PILImage := Some PIL_Image; desktop := Demo.desk true true;
        calls := [ctx_info "Clicking at (3, 4) with right button, 2 times.";
                  pyautogui_click 3 4 Button.right 2] |},
     Raise (new RuntimeError
              "Failed to click at (3, 4) with right button, 2 times: no display")) ∧
  (click (Demo.stuck_button (new KeyboardInterrupt "")) 3 4 Button.right 2
     (Some FastMCP_Context) (Demo.process true true true)).2 =
    Raise (new KeyboardInterrupt "").
Proof.
  split; [|split].
  - apply (proj1 (click_outcomes Demo.platform 3 4 Button.right 2
                    (Demo.process true true true))
             (Demo.with_pointer (Demo.desk true true) (3, 4)) (Ok tt)).
    reflexivity.
  - apply (proj2 (click_outcomes
                    (Demo.stuck_button (new Demo.OSError "no display"))
                    3 4 Button.right 2 (Demo.process true true true))
             FastMCP_Context (Demo.desk true true) (Demo.desk true true)
             (Raise (new Demo.OSError "no display")));
      reflexivity.
  - rewrite (proj2 (click_outcomes
                      (Demo.stuck_button (new KeyboardInterrupt ""))
                      3 4 Button.right 2 (Demo.process true true true))
               FastMCP_Context (Demo.desk true true) (Demo.desk true true)
               (Raise (new KeyboardInterrupt "")) eq_refl eq_refl).
    reflexivity.
Defined.

Lemma find_image_on_screen_raises_only_witness :
  (base64_Error_missing = Pillow_missing ∧
   PILImage (Demo.process true false true) = None ∧
   {| PILImage := Some PIL_Image; desktop := Demo.desk false true;
      calls := [base64_b64decode "iVBORw=="; PILImage_open Demo.icon;
                pyautogui_locateCenterOnScreen Demo.icon float_0_9] |}
   = Demo.process true false true) ∨
  (base64_Error_missing = base64_Error_missing ∧
   PILImage (Demo.process true false true) = Some PIL_Image).
Proof.
  apply (find_image_on_screen_raises_only Demo.platform "iVBORw==" float_0_9
           (Demo.process true false true)).
  vm_compute. reflexivity.
Defined.

Lemma find_image_on_screen_unopenable_image_witness :
  find_image_on_screen Demo.platform "!!!!" float_0_9
    (Demo.process true true true) =
    ({| PILImage := Some PIL_Image; desktop := Demo.desk true true;
        calls := [base64_b64decode "!!!!"; PILImage_open []] |},
     Raise base64_Error_missing).
Proof.
  apply (find_image_on_screen_unopenable_image Demo.platform "!!!!" float_0_9
           (Demo.process true true true) [] (Demo.desk true true)
           (new Demo.UnidentifiedImageError "cannot identify image file"));
    vm_compute; reflexivity.
Defined.

Lemma find_image_on_screen_skips_foreign_characters_witness :
  base64.b64decode "#!?= *" = Ok [] ∧
  ∃ evs,
    calls (find_image_on_screen Demo.platform "#!?= *" float_0_9
             (Demo.process true true true)).1 =
    [] ++ [base64_b64decode "#!?= *"; PILImage_open []] ++ evs.
Proof.
  apply (find_image_on_screen_skips_foreign_characters Demo.platform
           "#!?= *" float_0_9 (Demo.process true true true));
    vm_compute; reflexivity.
Defined.

Lemma take_screenshot_encoding_failure_witness :
  take_screenshot (Demo.faulty (new Demo.OSError "encoder error"))
    (Demo.process true true true) =
    ({| PILImage := Some PIL_Image; desktop := Demo.desk true true;
        calls := [pyautogui_screenshot;
                  Picture_save Demo.screen_content "PNG"] |},
     Raise (new RuntimeError "Failed to take screenshot: encoder error")).
Proof.
  apply (take_screenshot_encoding_failure
           (Demo.faulty (new Demo.OSError "encoder error"))
           (Demo.process true true true) (Demo.desk true true)
           (Demo.desk true true) Demo.screen_content
           (new Demo.OSError "encoder error"));
    reflexivity.
Defined.

Lemma get_screen_size_outcomes_witness :
  (∃ d : gmap string Z,
     (get_screen_size Demo.platform (Demo.process true true true)).2 = Ok d ∧
     d !! "width" = Some 1920 ∧ d !! "height" = Some 1080 ∧
     dom d = ({[ "width"; "height" ]} : gset string)) ∧
  (get_screen_size (Demo.faulty (new Demo.OSError "no display"))
     (Demo.process true true true)).2 =
    Raise (new RuntimeError "Failed to get screen size: no display").
Proof.
  split.
  - apply (proj1 (proj2 (get_screen_size_outcomes Demo.platform
                           (Demo.process true true true)))
             (Demo.desk true true) 1920 1080).
    reflexivity.
  - apply (proj2 (proj2 (get_screen_size_outcomes
                           (Demo.faulty (new Demo.OSError "no display"))
                           (Demo.process true true true)))
             (Demo.desk true true) (new Demo.OSError "no display"));
      reflexivity.
Defined.

Lemma invalid_arguments_leave_the_process_unchanged_witness :
  ∃ e,
    call_tool Demo.platform (call_type_text "hello" (Some S754_nan))
      (Demo.process true true true) = (Demo.process true true true, Raise e) ∧
    exc_class e = ValidationError.
Proof.
  apply (invalid_arguments_leave_the_process_unchanged Demo.platform
           (call_type_text "hello" (Some S754_nan))
           (Demo.process true true true)).
  reflexivity.
Defined.

Lemma confidence_is_checked_before_Pillow_witness :
  ∃ e,
    call_tool Demo.platform
      (call_find_image_on_screen "iVBORw==" (Some float_1_5))
      (Demo.process false true true) = (Demo.process false true true, Raise e) ∧
    exc_class e = ValidationError ∧ e ≠ Pillow_missing.
Proof.
  apply (confidence_is_checked_before_Pillow Demo.platform "iVBORw=="
           float_1_5 (Demo.process false true true)).
  reflexivity.
Defined.

Lemma defaults_pass_validation_witness :
  arguments_valid (call_click 3 4 None None None) = true.
Proof.
  apply (proj1 (defaults_pass_validation Demo.platform 3 4 None "" ""
                  (Demo.process true true true))
           (call_click 3 4 None None None)).
  reflexivity.
Defined.

Lemma imaging_tools_available_for_the_lifetime_witness :
  ∃ r,
    (serve Demo.platform
       [call_move_to 5 5; call_take_screenshot]
       (Demo.process true true true)).2 !! 1%nat = Some r ∧
    r ≠ Raise Pillow_missing.
Proof.
  apply (imaging_tools_available_for_the_lifetime Demo.platform
           (Demo.desk true true) (Demo.process true true true)
           [call_move_to 5 5; call_take_screenshot] 1%nat
           call_take_screenshot); reflexivity.
Defined.
